(** * github-stats-counter: a shallow embedding of [main.py]

    The program pages through the pull-request and commit lists of one
    repository, folds the items into per-contributor counters, merges the
    two mappings, sorts them and prints a report.

    The embedding follows the Python text function by function.  JSON
    values are an inductive type, Python exceptions are an error result,
    and the network is a script of responses consumed one per
    [requests.get], with every request, [print] and [time.sleep] recorded
    in a trace. *)

From Stdlib Require Import ZArith List String Ascii DecimalString Bool Lia.
From Stdlib Require Import Permutation Sorted.
Import ListNotations.

Open Scope string_scope.
Open Scope list_scope.
Open Scope Z_scope.

(** ** Python values *)

(** What [json.loads] and [response.json()] produce.  Numbers are the
    integers (no item field read by the program is fractional).  A [JObj]
    lists the entries of the parsed dict, so its keys are distinct and
    [assoc] finds the one entry of a key. *)
#[warnings="-register-all"]
Inductive json : Type :=
| JNull
| JBool (b : bool)
| JNum (n : Z)
| JStr (s : string)
| JArr (l : list json)
| JObj (kvs : list (string * json)).

(** The exceptions the modelled statements can raise. *)
Inductive exn : Type :=
| AttributeError   (* [.get] on a value that is not a dict *)
| TypeError        (* unhashable key, bad operand, not iterable *)
| UnboundLocalError.

Inductive result (A : Type) : Type :=
| Ok (a : A)
| Raise (e : exn).
Arguments Ok {A} a.
Arguments Raise {A} e.

Definition rbind {A B} (r : result A) (f : A -> result B) : result B :=
  match r with
  | Ok a => f a
  | Raise e => Raise e
  end.

Declare Scope result_scope.
Delimit Scope result_scope with result.
Notation "x <- r ;; k" := (rbind r (fun x => k))
  (at level 61, r at next level, right associativity) : result_scope.

Fixpoint assoc {V} (k : string) (kvs : list (string * V)) : option V :=
  match kvs with
  | [] => None
  | (k', v) :: rest => if String.eqb k k' then Some v else assoc k rest
  end.

(** [d.get(k, default)]: only a dict has the method. *)
Definition py_get (d : json) (k : string) (default : json) : result json :=
  match d with
  | JObj kvs => Ok (match assoc k kvs with Some v => v | None => default end)
  | _ => Raise AttributeError
  end.

(** Truth value of a JSON value, as [if x:] and [not x] take it. *)
Definition truthy (x : json) : bool :=
  match x with
  | JNull => false
  | JBool b => b
  | JNum n => negb (n =? 0)
  | JStr s => negb (String.eqb s "")
  | JArr l => match l with [] => false | _ => true end
  | JObj kvs => match kvs with [] => false | _ => true end
  end.

(** A [JStr] holds its text in UTF-8.  A character of the text is a lead
    byte with the continuation bytes (10xxxxxx) that follow it. *)
Definition is_continuation (c : ascii) : bool :=
  match c with
  | Ascii _ _ _ _ _ _ b6 b7 => b7 && negb b6
  end.

(** The continuation bytes a text starts with, and its characters from
    the first lead byte on. *)
Fixpoint utf8_split (s : string) : string * list string :=
  match s with
  | EmptyString => (EmptyString, [])
  | String c s' =>
      let (cont, chars) := utf8_split s' in
      if is_continuation c then (String c cont, chars)
      else (EmptyString, String c cont :: chars)
  end.

(** The characters of a text, as [for c in s] and [len(s)] see them. *)
Definition utf8_chars (s : string) : list string :=
  let (cont, chars) := utf8_split s in
  match cont with
  | EmptyString => chars
  | String _ _ => cont :: chars
  end.

(** Iteration ([for f in x], [items.extend(x)]): a list yields its
    elements, a dict its keys, a string its characters. *)
Definition py_iter (x : json) : result (list json) :=
  match x with
  | JArr l => Ok l
  | JObj kvs => Ok (map (fun kv => JStr (fst kv)) kvs)
  | JStr s => Ok (map JStr (utf8_chars s))
  | _ => Raise TypeError
  end.

(** An operand of integer addition: [bool] is a subclass of [int]. *)
Definition py_int (x : json) : result Z :=
  match x with
  | JNum n => Ok n
  | JBool b => Ok (Z.b2z b)
  | _ => Raise TypeError
  end.

(** [a + b] on JSON values. *)
Definition py_add (a b : json) : result json :=
  match a, b with
  | JStr s, JStr t => Ok (JStr (s ++ t)%string)
  | JArr l, JArr m => Ok (JArr (l ++ m))
  | _, _ =>
      (x <- py_int a ;; y <- py_int b ;; Ok (JNum (x + y)))%result
  end.

(** [sum(f.get('changes', 0) for f in pr_files)], the generator consumed
    from the left with the running total starting at 0. *)
Fixpoint sum_changes (acc : Z) (pr_files : list json) : result Z :=
  match pr_files with
  | [] => Ok acc
  | f :: rest =>
      (c <- py_get f "changes" (JNum 0) ;;
       n <- py_int c ;;
       sum_changes (acc + n) rest)%result
  end.

(** [str(n)] for an integer. *)
Definition str_int (n : Z) : string := NilZero.string_of_int (Z.to_int n).

(** ** Dictionary keys and insertion-ordered dictionaries *)

(** The hashable JSON values; lists and dicts are not. *)
Inductive pykey : Type :=
| KNone
| KBool (b : bool)
| KInt (n : Z)
| KStr (s : string).

Definition hash_key (x : json) : result pykey :=
  match x with
  | JNull => Ok KNone
  | JBool b => Ok (KBool b)
  | JNum n => Ok (KInt n)
  | JStr s => Ok (KStr s)
  | JArr _ | JObj _ => Raise TypeError
  end.

(** Python compares keys with [==], under which [True == 1] and
    [False == 0]. *)
Definition key_eqb (a b : pykey) : bool :=
  match a, b with
  | KNone, KNone => true
  | KStr s, KStr t => String.eqb s t
  | KInt n, KInt m => n =? m
  | KBool x, KBool y => Bool.eqb x y
  | KBool x, KInt m => Z.b2z x =? m
  | KInt n, KBool y => n =? Z.b2z y
  | _, _ => false
  end.

(** [str(k)] as an f-string formats a key. *)
Definition str_key (k : pykey) : string :=
  match k with
  | KNone => "None"
  | KBool true => "True"
  | KBool false => "False"
  | KInt n => str_int n
  | KStr s => s
  end.

(** A dict keeps its entries in insertion order; assigning to a key that
    is already there keeps the entry's place and its first key object. *)
Definition dict (V : Type) : Type := list (pykey * V).

Fixpoint dict_get {V} (k : pykey) (d : dict V) : option V :=
  match d with
  | [] => None
  | (k', v) :: rest => if key_eqb k k' then Some v else dict_get k rest
  end.

Definition dict_contains {V} (k : pykey) (d : dict V) : bool :=
  match dict_get k d with Some _ => true | None => false end.

Fixpoint dict_set {V} (k : pykey) (v : V) (d : dict V) : dict V :=
  match d with
  | [] => [(k, v)]
  | (k', v') :: rest =>
      if key_eqb k k' then (k', v) :: rest else (k', v') :: dict_set k v rest
  end.

(** In-place change of the value stored under [k] ([d[k][f] = ...],
    [d[k][f] += ...]); the program only does it on keys that are there. *)
Fixpoint dict_update {V} (k : pykey) (f : V -> V) (d : dict V) : dict V :=
  match d with
  | [] => []
  | (k', v) :: rest =>
      if key_eqb k k' then (k', f v) :: rest else (k', v) :: dict_update k f rest
  end.

(** The distinct-keys invariant of a dict. *)
Fixpoint dict_wf {V} (d : dict V) : Prop :=
  match d with
  | [] => True
  | (k, _) :: rest => dict_get k rest = None /\ dict_wf rest
  end.

(** The per-contributor value [{'prs': _, 'commits': _, 'lines': _}]. *)
Record counters : Type := mkCounters { prs : Z; commits : Z; lines : Z }.

Definition zero_counters : counters := mkCounters 0 0 0.

(** ** The network and the console *)

(** The query of a list request. *)
Record params : Type := mkParams {
  since : string;
  until : string;
  per_page : Z;
  page : Z
}.

(** Where a request goes.  The commit-detail URL interpolates the item's
    [sha] value with [str()]; the value is kept as it is. *)
Inductive url : Type :=
| Url (s : string)
| CommitUrl (owner repo : string) (sha : json).

Record request : Type := mkRequest {
  req_url : url;
  req_params : option params;
  req_headers : list (string * string)
}.

(** A response: its status and the JSON value its text parses to. *)
Record response : Type := mkResponse { status_code : Z; body : json }.

Inductive event : Type :=
| Get (rq : request)
| Print (s : string)
| Sleep (seconds : Z).

(** The responses still to come, in the order the requests will receive
    them, and what the program has done so far. *)
Record world : Type := mkWorld { pending : list response; trace : list event }.

(** A call returns, raises, or is still waiting for a response when the
    script ends. *)
Inductive outcome (A : Type) : Type :=
| Returns (a : A) (w : world)
| Raises (e : exn) (w : world)
| Blocked (w : world).
Arguments Returns {A} a w.
Arguments Raises {A} e w.
Arguments Blocked {A} w.

Definition M (A : Type) : Type := world -> outcome A.

Definition ret {A} (a : A) : M A := fun w => Returns a w.

Definition bind {A B} (m : M A) (f : A -> M B) : M B :=
  fun w =>
    match m w with
    | Returns a w' => f a w'
    | Raises e w' => Raises e w'
    | Blocked w' => Blocked w'
    end.

Definition lift {A} (r : result A) : M A :=
  fun w => match r with Ok a => Returns a w | Raise e => Raises e w end.

Definition emit (e : event) : M unit :=
  fun w => Returns tt (mkWorld (pending w) (trace w ++ [e])).

Definition print (s : string) : M unit := emit (Print s).
Definition sleep (seconds : Z) : M unit := emit (Sleep seconds).

Definition requests_get (rq : request) : M response :=
  fun w =>
    match pending w with
    | [] => Blocked (mkWorld [] (trace w ++ [Get rq]))
    | r :: rest => Returns r (mkWorld rest (trace w ++ [Get rq]))
    end.

Declare Scope io_scope.
Delimit Scope io_scope with io.
Notation "x <- m ;; k" := (bind m (fun x => k))
  (at level 61, m at next level, right associativity) : io_scope.
Notation "m ;;; k" := (bind m (fun _ => k))
  (at level 61, right associativity) : io_scope.

(** [headers = {}; if token: headers['Authorization'] = f'token {token}'].
    The token is the text [main] read; the empty text is falsy. *)
Definition auth_headers (token : string) : list (string * string) :=
  if String.eqb token "" then [] else [("Authorization", ("token " ++ token)%string)].

(** ** [get_github_data] (lines 6-36) *)

Definition base_url (owner repo endpoint : string) : string :=
  ("https://api.github.com/repos/" ++ owner ++ "/" ++ repo ++ "/" ++ endpoint)%string.

(** The request of one turn of the loop.  [start_date] and [end_date] are
    the dates in ISO form, as [isoformat()] prints them. *)
Definition page_request (owner repo endpoint start_date end_date token : string)
  (page : Z) : request :=
  mkRequest (Url (base_url owner repo endpoint))
    (Some (mkParams (start_date ++ "T00:00:00Z")%string
                     (end_date ++ "T23:59:59Z")%string 100 page))
    (auth_headers token).

Definition rate_limit_message : string := "Rate limit exceeded. Waiting 60 seconds...".

Definition failure_message (status : Z) : string :=
  ("API request failed: " ++ str_int status)%string.

(** The [while True] loop.  Each turn issues one request and consumes one
    response, so the loop is a recursion on the script; [tr] is the trace
    so far, [page] and [items] are the loop's variables. *)
Fixpoint get_github_data_loop (rq : Z -> request) (script : list response)
  (tr : list event) (page : Z) (items : list json) : outcome (list json) :=
  match script with
  | [] => Blocked (mkWorld [] (tr ++ [Get (rq page)]))
  | response :: script' =>
      let tr := tr ++ [Get (rq page)] in
      if status_code response =? 200 then
        match py_iter (body response) with
        | Raise e => Raises e (mkWorld script' tr)
        | Ok data =>
            let items := items ++ data in
            if Z.of_nat (List.length data) <? 100
            then Returns items (mkWorld script' tr)
            else get_github_data_loop rq script' tr (page + 1) items
        end
      else if status_code response =? 403 then
        get_github_data_loop rq script'
          (tr ++ [Print rate_limit_message; Sleep 60]) page items
      else
        Returns items
          (mkWorld script' (tr ++ [Print (failure_message (status_code response))]))
  end.

Definition get_github_data (owner repo endpoint start_date end_date token : string)
  : M (list json) :=
  fun w =>
    get_github_data_loop
      (page_request owner repo endpoint start_date end_date token)
      (pending w) (trace w) 1 [].

(** ** [get_commit_details] (lines 38-53) *)

Definition commit_details_failure (status : Z) : string :=
  ("Failed to fetch commit details: " ++ str_int status)%string.

Definition get_commit_details (owner repo : string) (sha : json) (token : string)
  : M (json * json) :=
  (response <- requests_get
                 (mkRequest (CommitUrl owner repo sha) None (auth_headers token)) ;;
   if status_code response =? 200 then
     let commit_data := body response in
     stats <- lift (py_get commit_data "stats" (JObj [])) ;;
     additions <- lift (py_get stats "additions" (JNum 0)) ;;
     stats' <- lift (py_get commit_data "stats" (JObj [])) ;;
     deletions <- lift (py_get stats' "deletions" (JNum 0)) ;;
     ret (additions, deletions)
   else
     print (commit_details_failure (status_code response)) ;;;
     ret (JNum 0, JNum 0))%io.

(** ** [get_user_stats_per_endpoint] (lines 55-104) *)

(** Line 62: [item.get('user', {}).get('login', 'unknown')]. *)
Definition pulls_login (item : json) : result json :=
  (user <- py_get item "user" (JObj []) ;;
   py_get user "login" (JStr "unknown"))%result.

(** Lines 66 and 86: [item.get('commit', {}).get('author', {}).get('name', 'unknown')]. *)
Definition commit_author_name (item : json) : result json :=
  (commit <- py_get item "commit" (JObj []) ;;
   commit_author <- py_get commit "author" (JObj []) ;;
   py_get commit_author "name" (JStr "unknown"))%result.

(** Lines 64-66, and again lines 83-86 ([.get('login')] has the default
    [None] of line 64). *)
Definition commits_login (item : json) : result json :=
  (author <- py_get item "author" (JObj []) ;;
   user_login <- py_get author "login" JNull ;;
   if negb (truthy user_login) then commit_author_name item
   else Ok user_login)%result.

(** Lines 61-66: the branch on the endpoint; with any other endpoint the
    name [user_login] is never bound and line 68 raises. *)
Definition item_login (endpoint : string) (item : json) : result json :=
  if String.eqb endpoint "pulls" then pulls_login item
  else if String.eqb endpoint "commits" then commits_login item
  else Raise UnboundLocalError.

(** Lines 68-69 and 89-90. *)
Definition ensure_entry (k : pykey) (user_stats : dict counters) : dict counters :=
  if dict_contains k user_stats then user_stats
  else dict_set k zero_counters user_stats.

Definition incr_prs (c : counters) : counters :=
  mkCounters (prs c + 1) (commits c) (lines c).
Definition incr_commits (c : counters) : counters :=
  mkCounters (prs c) (commits c + 1) (lines c).
Definition add_lines (n : Z) (c : counters) : counters :=
  mkCounters (prs c) (commits c) (lines c + n).

(** Line 74: [item.get('url') + '/files']. *)
Definition files_url (u : json) : result string :=
  match u with
  | JStr s => Ok (s ++ "/files")%string
  | _ => Raise TypeError
  end.

(** The body of the [for] loop. *)
Definition process_item (owner repo endpoint token : string)
  (user_stats : dict counters) (item : json) : M (dict counters) :=
  (user_login <- lift (item_login endpoint item) ;;
   k <- lift (hash_key user_login) ;;
   let user_stats := ensure_entry k user_stats in
   if String.eqb endpoint "pulls" then
     let user_stats := dict_update k incr_prs user_stats in
     u <- lift (py_get item "url" JNull) ;;
     pr_files_url <- lift (files_url u) ;;
     pr_response <- requests_get
                      (mkRequest (Url pr_files_url) None (auth_headers token)) ;;
     if status_code pr_response =? 200 then
       pr_files <- lift (py_iter (body pr_response)) ;;
       changes <- lift (sum_changes 0 pr_files) ;;
       ret (dict_update k (add_lines changes) user_stats)
     else ret user_stats
   else if String.eqb endpoint "commits" then
     user_login <- lift (commits_login item) ;;
     k <- lift (hash_key user_login) ;;
     let user_stats := ensure_entry k user_stats in
     let user_stats := dict_update k incr_commits user_stats in
     sha <- lift (py_get item "sha" JNull) ;;
     details <- get_commit_details owner repo sha token ;;
     total <- lift (py_add (fst details) (snd details)) ;;
     n <- lift (py_int total) ;;
     ret (dict_update k (add_lines n) user_stats)
   else ret user_stats)%io.

Fixpoint aggregate_items (owner repo endpoint token : string)
  (items : list json) (user_stats : dict counters) : M (dict counters) :=
  match items with
  | [] => ret user_stats
  | item :: rest =>
      (user_stats' <- process_item owner repo endpoint token user_stats item ;;
       aggregate_items owner repo endpoint token rest user_stats')%io
  end.

Definition get_user_stats_per_endpoint
  (owner repo endpoint start_date end_date token : string) : M (dict counters) :=
  (items <- get_github_data owner repo endpoint start_date end_date token ;;
   aggregate_items owner repo endpoint token items [])%io.

(** ** [main] (lines 122-152)

    The prompts, the date parsing and the split of the URL (lines 108-120)
    come before; [main] below starts from their results. *)

(** Lines 127-131. *)
Definition merge_pr_entry (user_stats : dict counters) (entry : pykey * counters)
  : dict counters :=
  let (user, stats) := entry in
  let user_stats := ensure_entry user user_stats in
  let user_stats :=
    dict_update user (fun c => mkCounters (prs stats) (commits c) (lines c)) user_stats in
  dict_update user (add_lines (lines stats)) user_stats.

(** Lines 135-139. *)
Definition merge_commit_entry (user_stats : dict counters) (entry : pykey * counters)
  : dict counters :=
  let (user, stats) := entry in
  let user_stats := ensure_entry user user_stats in
  let user_stats :=
    dict_update user (fun c => mkCounters (prs c) (commits stats) (lines c)) user_stats in
  dict_update user (add_lines (lines stats)) user_stats.

(** The two merging loops, from the empty [user_stats] of line 123. *)
Definition merge_stats (pr_stats commit_stats : dict counters) : dict counters :=
  fold_left merge_commit_entry commit_stats (fold_left merge_pr_entry pr_stats []).

(** The sort key of line 145 and the order of Python tuples. *)
Definition sort_key (x : pykey * counters) : Z * Z * Z :=
  (prs (snd x), commits (snd x), lines (snd x)).

Definition tuple_ltb (a b : Z * Z * Z) : bool :=
  let '(a1, a2, a3) := a in
  let '(b1, b2, b3) := b in
  (a1 <? b1) || ((a1 =? b1) && ((a2 <? b2) || ((a2 =? b2) && (a3 <? b3)))).

(** [sorted(xs, key=sort_key, reverse=True)].  Python's sort is stable, also
    when reversed: the result is in descending key order and entries with
    equal keys keep their order in [xs].  That list is computed here by
    insertion from the right. *)
Fixpoint insert_desc {A} (key : A -> Z * Z * Z) (x : A) (l : list A) : list A :=
  match l with
  | [] => [x]
  | y :: l' =>
      if tuple_ltb (key x) (key y) then y :: insert_desc key x l' else x :: l
  end.

Fixpoint sorted_reverse {A} (key : A -> Z * Z * Z) (xs : list A) : list A :=
  match xs with
  | [] => []
  | x :: xs' => insert_desc key x (sorted_reverse key xs')
  end.

Definition sorted_users (user_stats : dict counters) : list (pykey * counters) :=
  sorted_reverse sort_key user_stats.

(** Line 150. *)
Definition report_line (entry : pykey * counters) : string :=
  let (user, stats) := entry in
  ("- " ++ str_key user ++ ": " ++ str_int (prs stats) ++ " pull requests, "
   ++ str_int (commits stats) ++ " commits, "
   ++ str_int (lines stats) ++ " lines of code changed")%string.

Definition newline : string := String (ascii_of_nat 10) "".

Definition no_contributions : string :=
  "No contributions found between the specified dates.".

Definition report_header : list string :=
  [(newline ++ "Contributor Statistics:")%string; String.concat "" (repeat "-" 50%nat)].

(** Lines 142-152: the texts printed, one per [print]. *)
Definition report (user_stats : dict counters) : list string :=
  match user_stats with
  | [] => [no_contributions]
  | _ :: _ => report_header ++ map report_line (sorted_users user_stats)
  end.

Fixpoint print_all (texts : list string) : M unit :=
  match texts with
  | [] => ret tt
  | s :: rest => (print s ;;; print_all rest)%io
  end.

(** Lines 122-139: the merged mapping [user_stats]. *)
Definition main_stats (owner repo start_date end_date token : string)
  : M (dict counters) :=
  (pr_stats <- get_user_stats_per_endpoint owner repo "pulls" start_date end_date token ;;
   let user_stats := fold_left merge_pr_entry pr_stats [] in
   commit_stats <- get_user_stats_per_endpoint owner repo "commits" start_date end_date token ;;
   let user_stats := fold_left merge_commit_entry commit_stats user_stats in
   ret user_stats)%io.

Definition main (owner repo start_date end_date token : string) : M unit :=
  (user_stats <- main_stats owner repo start_date end_date token ;;
   print_all (report user_stats))%io.

(** ** Vocabulary of the statements *)

(** A successful response whose body is the page [p]. *)
Definition ok_page (p : list json) : response := mkResponse 200 (JArr p).

Definition full_page (p : list json) : Prop := List.length p = 100%nat.

(** The requests for [n] consecutive pages from page [first] on. *)
Definition page_requests (rq : Z -> request) (first : Z) (n : nat) : list event :=
  map (fun i => Get (rq (first + Z.of_nat i))) (seq 0 n).

(** One turn of the loop on a rate-limit response. *)
Definition retry_cycle (rq : Z -> request) (page : Z) : list event :=
  [Get (rq page); Print rate_limit_message; Sleep 60].

Fixpoint retry_cycles (rq : Z -> request) (page : Z) (n : nat) : list event :=
  match n with
  | O => []
  | S n' => retry_cycle rq page ++ retry_cycles rq page n'
  end.

Definition rate_limited (r : response) : Prop := status_code r = 403.

Definition count_requests (tr : list event) : nat :=
  List.length (filter (fun e => match e with Get _ => true | _ => false end) tr).

Definition count_sleeps (tr : list event) : nat :=
  List.length (filter (fun e => match e with Sleep _ => true | _ => false end) tr).

(** What the caller of a call gets back, if it gets anything. *)
Definition returned {A} (o : outcome A) : option A :=
  match o with
  | Returns a _ => Some a
  | _ => None
  end.

Definition raised {A} (o : outcome A) : option exn :=
  match o with
  | Raises e _ => Some e
  | _ => None
  end.

Definition tuple_eqb (a b : Z * Z * Z) : bool :=
  let '(a1, a2, a3) := a in
  let '(b1, b2, b3) := b in
  (a1 =? b1) && (a2 =? b2) && (a3 =? b3).

(** Descending lexicographic order on the sort key. *)
Definition lex_ge (a b : Z * Z * Z) : Prop :=
  let '(a1, a2, a3) := a in
  let '(b1, b2, b3) := b in
  a1 > b1 \/ (a1 = b1 /\ (a2 > b2 \/ (a2 = b2 /\ a3 >= b3))).

Definition ge_by {A} (key : A -> Z * Z * Z) (x y : A) : Prop :=
  lex_ge (key x) (key y).

Definition key_ge (x y : pykey * counters) : Prop := ge_by sort_key x y.

(** The old value of an entry the merge is about to rewrite. *)
Definition or_zero (c : option counters) : counters :=
  match c with Some c => c | None => zero_counters end.

(** The entry the merge gives a contributor, from what each source has
    for it. *)
Definition merged_entry (p c : option counters) : option counters :=
  match p, c with
  | None, None => None
  | Some p, None => Some (mkCounters (prs p) 0 (lines p))
  | None, Some c => Some (mkCounters 0 (commits c) (lines c))
  | Some p, Some c => Some (mkCounters (prs p) (commits c) (lines p + lines c))
  end.


(** ** Vocabulary of the further statements *)

(** The world a call leaves behind, however it ends. *)
Definition final_world {A} (o : outcome A) : world :=
  match o with
  | Returns _ w => w
  | Raises _ w => w
  | Blocked w => w
  end.

(** A response after which the loop of [get_github_data] takes another
    turn: a rate limit, or a 200 whose body has at least 100 items. *)
Definition continues (r : response) : bool :=
  if status_code r =? 200 then
    match py_iter (body r) with
    | Ok data => negb (Z.of_nat (List.length data) <? 100)
    | Raise _ => false
    end
  else status_code r =? 403.

(** The items a response adds to [items]. *)
Definition page_items (r : response) : list json :=
  if status_code r =? 200 then
    match py_iter (body r) with
    | Ok data => data
    | Raise _ => []
    end
  else [].

Definition gathered (rs : list response) : list json := flat_map page_items rs.

Definition is_rate_limit (r : response) : bool := status_code r =? 403.

(** The page numbers of the list requests of a trace, in order. *)
Definition requested_pages (tr : list event) : list Z :=
  flat_map (fun e =>
              match e with
              | Get rq =>
                  match req_params rq with
                  | Some ps => [page ps]
                  | None => []
                  end
              | _ => []
              end) tr.

(** Each page is the one before it or the next one. *)
Fixpoint slow_climb (p : Z) (l : list Z) : Prop :=
  match l with
  | [] => True
  | q :: l' => (q = p \/ q = p + 1) /\ slow_climb q l'
  end.

(** Whatever the script and however the call ends, the events a call adds
    to the trace all satisfy [Q]; the trace it found is kept. *)
Definition emits {A} (Q : event -> Prop) (m : M A) : Prop :=
  forall w, exists evs,
    trace (final_world (m w)) = trace w ++ evs /\ Forall Q evs.

(** What the run of [main] with these dates and this token may do: a
    request carries the headers of the token, a list request moreover asks
    for pages of 100 from page 1 on within the date range, and a sleep
    lasts 60 seconds. *)
Definition polite (start_date end_date token : string) (e : event) : Prop :=
  match e with
  | Get rq =>
      req_headers rq = auth_headers token
      /\ match req_params rq with
         | Some ps =>
             since ps = (start_date ++ "T00:00:00Z")%string
             /\ until ps = (end_date ++ "T23:59:59Z")%string
             /\ per_page ps = 100
             /\ 1 <= page ps
         | None => True
         end
  | Print _ => True
  | Sleep seconds => seconds = 60
  end.

(** The key an item is counted under (lines 61-68). *)
Definition item_key (endpoint : string) (item : json) : result pykey :=
  (user_login <- item_login endpoint item ;; hash_key user_login)%result.

(** The lines a pull request gets from the response to its files request
    (lines 77-79): nothing unless the status is 200. *)
Definition pr_files_lines (r : response) : result Z :=
  if status_code r =? 200 then
    (pr_files <- py_iter (body r) ;; sum_changes 0 pr_files)%result
  else Ok 0.

(** The lines a commit gets from the response to its detail request
    (lines 46-53 and 102): additions plus deletions of a 200, else 0. *)
Definition commit_lines (r : response) : result Z :=
  if status_code r =? 200 then
    (stats <- py_get (body r) "stats" (JObj []) ;;
     additions <- py_get stats "additions" (JNum 0) ;;
     stats' <- py_get (body r) "stats" (JObj []) ;;
     deletions <- py_get stats' "deletions" (JNum 0) ;;
     total <- py_add additions deletions ;;
     py_int total)%result
  else Ok 0.

(** What one item adds to the mapping, from the item and the response to
    its one extra request: the key and the lines. *)
Definition item_credit (endpoint : string) (item : json) (r : response)
  : result (pykey * Z) :=
  (k <- item_key endpoint item ;;
   if String.eqb endpoint "pulls" then
     u <- py_get item "url" JNull ;;
     _ <- files_url u ;;
     n <- pr_files_lines r ;;
     Ok (k, n)
   else if String.eqb endpoint "commits" then
     n <- commit_lines r ;;
     Ok (k, n)
   else Raise UnboundLocalError)%result.

(** The credits of a list of items, each with the response of its turn;
    [None] when an item has none or the responses run out. *)
Fixpoint item_credits (endpoint : string) (items : list json)
  (responses : list response) : option (list (pykey * Z)) :=
  match items with
  | [] => Some []
  | item :: items' =>
      match responses with
      | [] => None
      | r :: responses' =>
          match item_credit endpoint item r with
          | Ok c =>
              match item_credits endpoint items' responses' with
              | Some cs => Some (c :: cs)
              | None => None
              end
          | Raise _ => None
          end
      end
  end.

Definition bump (endpoint : string) (c : counters) : counters :=
  if String.eqb endpoint "pulls" then incr_prs c else incr_commits c.

(** The mapping after an item credited to [k] with [n] lines. *)
Definition credit (endpoint : string) (user_stats : dict counters)
  (c : pykey * Z) : dict counters :=
  dict_update (fst c) (add_lines (snd c))
    (dict_update (fst c) (bump endpoint) (ensure_entry (fst c) user_stats)).

Definition zsum (ns : list Z) : Z := fold_right Z.add 0 ns.

(** The credits that go to the key [k]. *)
Definition credits_of (k : pykey) (cs : list (pykey * Z)) : list Z :=
  map snd (filter (fun c => key_eqb k (fst c)) cs).

(** An entry after [ns] more items of the endpoint. *)
Definition tally (endpoint : string) (ns : list Z) (c : counters) : counters :=
  if String.eqb endpoint "pulls"
  then mkCounters (prs c + Z.of_nat (List.length ns)) (commits c) (lines c + zsum ns)
  else mkCounters (prs c) (commits c + Z.of_nat (List.length ns)) (lines c + zsum ns).

Definition tallied (endpoint : string) (ns : list Z) (old : option counters)
  : option counters :=
  match ns with
  | [] => old
  | _ :: _ => Some (tally endpoint ns (or_zero old))
  end.

(** The sum of one counter over all the entries of a mapping. *)
Definition total (f : counters -> Z) (d : dict counters) : Z :=
  zsum (map (fun e => f (snd e)) d).

(** The counter an endpoint counts its items in, and the other one. *)
Definition own_counter (endpoint : string) (c : counters) : Z :=
  if String.eqb endpoint "pulls" then prs c else commits c.

Definition other_counter (endpoint : string) (c : counters) : Z :=
  if String.eqb endpoint "pulls" then commits c else prs c.

(** The lines one changed file of a pull request stands for. *)
Definition file_changes (f : json) : result Z :=
  (c <- py_get f "changes" (JNum 0) ;; py_int c)%result.

(** The request of [get_commit_details]. *)
Definition commit_request (owner repo : string) (sha : json) (token : string)
  : request :=
  mkRequest (CommitUrl owner repo sha) None (auth_headers token).

(** A response to the first list request after which the endpoint has no
    item: a failure, or a 200 with nothing in it. *)
Definition barren (r : response) : Prop :=
  (status_code r <> 200 /\ status_code r <> 403)
  \/ (status_code r = 200 /\ py_iter (body r) = Ok []).

Definition failure_prints (r : response) : list event :=
  if status_code r =? 200 then [] else [Print (failure_message (status_code r))].

Definition keys {V} (d : dict V) : list pykey := map fst d.

(** ** The repository URL (line 120)

    [owner, repo = url.strip().split('/')[-2:]], from the stripped text
    on. *)

(** [s.split(sep)] for a separator of one character. *)
Fixpoint split_on (sep : ascii) (s : string) : list string :=
  match s with
  | EmptyString => [EmptyString]
  | String c s' =>
      if Ascii.eqb c sep then EmptyString :: split_on sep s'
      else
        match split_on sep s' with
        | [] => [String c EmptyString]
        | field :: fields => String c field :: fields
        end
  end.

(** [l[-2:]]. *)
Definition last_two {A} (l : list A) : list A :=
  skipn (List.length l - 2) l.

(** The unpacking into two names; [None] when it raises [ValueError]
    because there are not two values. *)
Definition owner_repo (stripped_url : string) : option (string * string) :=
  match last_two (split_on "/" stripped_url) with
  | [owner; repo] => Some (owner, repo)
  | _ => None
  end.

Definition no_slash (s : string) : Prop :=
  forallb (fun c => negb (Ascii.eqb c "/")) (list_ascii_of_string s) = true.

(** The number of bytes of a text that start a character. *)
Fixpoint lead_bytes (s : string) : nat :=
  match s with
  | EmptyString => O
  | String c s' => ((if is_continuation c then 0 else 1) + lead_bytes s')%nat
  end.

Definition starts_with_lead (s : string) : bool :=
  match s with
  | EmptyString => true
  | String c _ => negb (is_continuation c)
  end.

(** [n] copies of a text in a row. *)
Fixpoint repeat_text (n : nat) (s : string) : string :=
  match n with
  | O => EmptyString
  | S n' => (s ++ repeat_text n' s)%string
  end.

(** The two bytes of U+00E9. *)
Definition e_acute : string :=
  String (ascii_of_nat 195) (String (ascii_of_nat 169) EmptyString).

(** ** [get_github_data]: pagination *)

Lemma page_requests_S rq first n :
  page_requests rq first (S n) = Get (rq first) :: page_requests rq (first + 1) n.
Proof.
  unfold page_requests. simpl. rewrite Z.add_0_r. f_equal.
  rewrite <- seq_shift, map_map. apply map_ext. intros i.
  do 2 f_equal. lia.
Qed.

Lemma count_requests_app tr1 tr2 :
  count_requests (tr1 ++ tr2) = (count_requests tr1 + count_requests tr2)%nat.
Proof. unfold count_requests. now rewrite filter_app, length_app. Qed.

Lemma count_requests_pages rq first n :
  count_requests (page_requests rq first n) = n.
Proof.
  unfold count_requests, page_requests.
  transitivity (List.length (seq 0 n)); [| apply length_seq].
  induction (seq 0 n) as [|i l IH]; simpl; [reflexivity | now rewrite IH].
Qed.

(** The loop on [k] full pages and then a short one, from any state. *)
Lemma get_github_data_loop_pages rq pages last rest :
  Forall full_page pages ->
  (List.length last < 100)%nat ->
  forall tr page items,
    get_github_data_loop rq (map ok_page pages ++ ok_page last :: rest) tr page items
    = Returns (items ++ List.concat pages ++ last)
        (mkWorld rest (tr ++ page_requests rq page (S (List.length pages)))).
Proof.
  intros Hfull Hlast.
  induction Hfull as [|p pages Hp _ IH]; intros tr page items.
  - simpl.
    destruct (Z.of_nat (List.length last) <? 100) eqn:E.
    + unfold page_requests. simpl. now rewrite Z.add_0_r.
    + apply Z.ltb_ge in E. lia.
  - cbn [map app get_github_data_loop ok_page status_code body py_iter].
    change (200 =? 200) with true. cbv iota.
    red in Hp. rewrite Hp. change (Z.of_nat 100 <? 100) with false. cbv iota.
    rewrite IH. cbn [List.concat List.length].
    rewrite (page_requests_S rq page (S (List.length pages))).
    now rewrite <- !app_assoc.
Qed.

(** C1. For a script of [k] full pages of exactly 100 items followed by
    one page of [m < 100] items, [get_github_data] returns the pages'
    items concatenated in order, [100 * k + m] of them, and issues exactly
    the [k + 1] requests for pages 1, 2, ..., [k + 1]; when the first page
    is already short, it issues the one request for page 1 and returns
    that page. *)
Theorem get_github_data_pages owner repo endpoint start_date end_date token
  (pages : list (list json)) (last : list json) (rest : list response)
  (tr : list event) :
  Forall full_page pages ->
  (List.length last < 100)%nat ->
  let rq := page_request owner repo endpoint start_date end_date token in
  let k := List.length pages in
  get_github_data owner repo endpoint start_date end_date token
    (mkWorld (map ok_page pages ++ ok_page last :: rest) tr)
  = Returns (List.concat pages ++ last) (mkWorld rest (tr ++ page_requests rq 1 (S k)))
  /\ List.length (List.concat pages ++ last) = (100 * k + List.length last)%nat
  /\ count_requests (page_requests rq 1 (S k)) = S k
  /\ get_github_data owner repo endpoint start_date end_date token
       (mkWorld (ok_page last :: rest) tr)
     = Returns last (mkWorld rest (tr ++ [Get (rq 1)])).
Proof.
  intros Hfull Hlast rq k. repeat split.
  - unfold get_github_data. cbn [pending trace].
    now rewrite (get_github_data_loop_pages _ pages last rest Hfull Hlast).
  - rewrite length_app. f_equal. subst k.
    induction Hfull as [|p ps Hp _ IH]; [reflexivity|].
    cbn [List.concat List.length]. rewrite length_app, IH. red in Hp. lia.
  - apply count_requests_pages.
  - unfold get_github_data. cbn [pending trace].
    now rewrite (get_github_data_loop_pages _ [] last rest (Forall_nil _) Hlast).
Qed.

Lemma get_github_data_pages_witness :
  let pages := [repeat JNull 100] in
  let last := [JNum 1; JNum 2] in
  Forall full_page pages /\ (List.length last < 100)%nat /\
  returned (get_github_data "o" "r" "pulls" "2024-01-01" "2024-01-31" ""
              (mkWorld (map ok_page pages ++ [ok_page last]) []))
  = Some (List.concat pages ++ last).
Proof.
  assert (Hf : Forall full_page [repeat JNull 100])
    by (constructor; [reflexivity | constructor]).
  assert (Hl : (List.length [JNum 1; JNum 2] < 100)%nat) by (simpl; lia).
  split; [exact Hf | split; [exact Hl |]].
  destruct (get_github_data_pages "o" "r" "pulls" "2024-01-01" "2024-01-31" ""
              [repeat JNull 100] [JNum 1; JNum 2] [] [] Hf Hl) as [H _].
  cbv zeta. rewrite H. reflexivity.
Defined.

(** ** [get_github_data]: rate limiting and failures *)

Lemma returned_not_raised {A} (o : outcome A) a : returned o = Some a -> raised o = None.
Proof. now destruct o. Qed.

Lemma get_github_data_loop_403 rq r script tr page items :
  rate_limited r ->
  get_github_data_loop rq (r :: script) tr page items
  = get_github_data_loop rq script (tr ++ retry_cycle rq page) page items.
Proof.
  unfold rate_limited. intros H. cbn [get_github_data_loop]. rewrite H.
  change (403 =? 200) with false. change (403 =? 403) with true. cbv iota.
  unfold retry_cycle. now rewrite <- app_assoc.
Qed.

Lemma count_requests_retry_cycles rq page n :
  count_requests (retry_cycles rq page n) = n.
Proof.
  induction n as [|n IH]; [reflexivity|].
  cbn [retry_cycles]. rewrite count_requests_app, IH. reflexivity.
Qed.

Lemma count_sleeps_retry_cycles rq page n :
  count_sleeps (retry_cycles rq page n) = n
  /\ Forall (fun e => forall s, e = Sleep s -> s = 60) (retry_cycles rq page n).
Proof.
  induction n as [|n [IH1 IH2]]; [split; [reflexivity | constructor]|].
  split.
  - cbn [retry_cycles]. unfold count_sleeps in *.
    rewrite filter_app, length_app, IH1. reflexivity.
  - cbn [retry_cycles retry_cycle app].
    repeat constructor; try discriminate; try assumption.
    intros s Hs. now inversion Hs.
Qed.

(** C6. On a rate-limit status the loop prints, sleeps 60 seconds and
    asks for the same page again, with [page] and [items] unchanged; this
    repeats for any number [n] of rate-limit responses in a row, each one
    costing one request and one sleep; while only such responses arrive
    the call is still waiting, and it never raises on their account. *)
Theorem get_github_data_rate_limit rq (rs script : list response)
  (tr : list event) (page : Z) (items : list json) :
  Forall rate_limited rs ->
  let n := List.length rs in
  get_github_data_loop rq (rs ++ script) tr page items
  = get_github_data_loop rq script (tr ++ retry_cycles rq page n) page items
  /\ get_github_data_loop rq rs tr page items
     = Blocked (mkWorld [] (tr ++ retry_cycles rq page n ++ [Get (rq page)]))
  /\ raised (get_github_data_loop rq rs tr page items) = None
  /\ count_requests (retry_cycles rq page n) = n
  /\ count_sleeps (retry_cycles rq page n) = n
  /\ Forall (fun e => forall s, e = Sleep s -> s = 60) (retry_cycles rq page n).
Proof.
  intros Hrs n. subst n.
  assert (Hgen : forall script' tr',
    get_github_data_loop rq (rs ++ script') tr' page items
    = get_github_data_loop rq script'
        (tr' ++ retry_cycles rq page (List.length rs)) page items).
  { induction Hrs as [|r rs Hr _ IH]; intros script' tr'.
    - cbn. now rewrite app_nil_r.
    - cbn [app List.length retry_cycles].
      rewrite (get_github_data_loop_403 rq r (rs ++ script') tr' page items Hr).
      rewrite IH. now rewrite <- app_assoc. }
  assert (Hblocked : get_github_data_loop rq rs tr page items
                     = Blocked (mkWorld [] (tr ++ retry_cycles rq page (List.length rs)
                                               ++ [Get (rq page)]))).
  { rewrite <- (app_nil_r rs) at 1. rewrite Hgen. cbn [get_github_data_loop].
    now rewrite <- app_assoc. }
  split; [apply Hgen|]. split; [exact Hblocked|].
  split; [now rewrite Hblocked|].
  split; [apply count_requests_retry_cycles|].
  apply count_sleeps_retry_cycles.
Qed.

Lemma get_github_data_rate_limit_witness :
  let rq := page_request "o" "r" "commits" "2024-01-01" "2024-01-31" "t" in
  let rs := [mkResponse 403 JNull; mkResponse 403 (JStr "slow down")] in
  Forall rate_limited rs /\
  get_github_data_loop rq (rs ++ [ok_page [JNum 7]]) [] 3 [JNum 5]
  = Returns [JNum 5; JNum 7]
      (mkWorld [] (retry_cycles rq 3 2 ++ [Get (rq 3)])).
Proof.
  assert (H : Forall rate_limited
                [mkResponse 403 JNull; mkResponse 403 (JStr "slow down")])
    by (repeat constructor).
  split; [exact H|].
  destruct (get_github_data_rate_limit
              (page_request "o" "r" "commits" "2024-01-01" "2024-01-31" "t")
              [mkResponse 403 JNull; mkResponse 403 (JStr "slow down")]
              [ok_page [JNum 7]] [] 3 [JNum 5] H) as [E _].
  cbv zeta. rewrite E. reflexivity.
Defined.

(** C7. On a status that is neither 200 nor 403 the loop prints the
    failure and returns the items gathered so far.  After [k] full pages
    that is the [100 * k] items of those pages, and the caller gets the
    same value as from an endpoint whose next page is empty. *)
Theorem get_github_data_failure owner repo endpoint start_date end_date token
  rq (r : response) (script : list response) (tr : list event) (page : Z)
  (items : list json) (pages : list (list json)) :
  status_code r <> 200 ->
  status_code r <> 403 ->
  Forall full_page pages ->
  get_github_data_loop rq (r :: script) tr page items
  = Returns items
      (mkWorld script (tr ++ [Get (rq page); Print (failure_message (status_code r))]))
  /\ returned (get_github_data owner repo endpoint start_date end_date token
                (mkWorld (map ok_page pages ++ r :: script) tr))
     = Some (List.concat pages)
  /\ raised (get_github_data owner repo endpoint start_date end_date token
              (mkWorld (map ok_page pages ++ r :: script) tr))
     = None
  /\ returned (get_github_data owner repo endpoint start_date end_date token
                (mkWorld (map ok_page pages ++ r :: script) tr))
     = returned (get_github_data owner repo endpoint start_date end_date token
                   (mkWorld (map ok_page pages ++ ok_page [] :: script) tr)).
Proof.
  intros H200 H403 Hfull.
  assert (Hstep : forall rq' tr' page' items',
    get_github_data_loop rq' (r :: script) tr' page' items'
    = Returns items'
        (mkWorld script
           (tr' ++ [Get (rq' page'); Print (failure_message (status_code r))]))).
  { intros rq' tr' page' items'. cbn [get_github_data_loop].
    destruct (status_code r =? 200) eqn:E1; [apply Z.eqb_eq in E1; contradiction|].
    destruct (status_code r =? 403) eqn:E2; [apply Z.eqb_eq in E2; contradiction|].
    now rewrite <- app_assoc. }
  assert (Hrun : forall rq' tr' page' items',
    returned (get_github_data_loop rq' (map ok_page pages ++ r :: script)
                tr' page' items')
    = Some (items' ++ List.concat pages)).
  { intros rq'. induction Hfull as [|p ps Hp _ IH]; intros tr' page' items'.
    - cbn [map app List.concat]. rewrite Hstep. cbn. now rewrite app_nil_r.
    - cbn [map app get_github_data_loop ok_page status_code body py_iter].
      change (200 =? 200) with true. cbv iota.
      red in Hp. rewrite Hp. change (Z.of_nat 100 <? 100) with false. cbv iota.
      rewrite IH. cbn [List.concat]. now rewrite app_assoc. }
  split; [apply Hstep|]. split; [|split].
  - unfold get_github_data. cbn [pending trace]. now rewrite Hrun.
  - apply (returned_not_raised _ (List.concat pages)).
    unfold get_github_data. cbn [pending trace]. now rewrite Hrun.
  - unfold get_github_data. cbn [pending trace]. rewrite Hrun.
    rewrite (get_github_data_loop_pages _ pages [] script Hfull); [|simpl; lia].
    cbn. now rewrite app_nil_r.
Qed.

Lemma get_github_data_failure_witness :
  let r := mkResponse 404 (JObj [("message", JStr "Not Found")]) in
  let pages := [repeat (JNum 0) 100] in
  status_code r <> 200 /\ status_code r <> 403 /\ Forall full_page pages /\
  returned (get_github_data "o" "r" "pulls" "2024-01-01" "2024-01-31" ""
              (mkWorld (map ok_page pages ++ [r]) []))
  = Some (List.concat pages).
Proof.
  assert (H1 : status_code (mkResponse 404 (JObj [("message", JStr "Not Found")])) <> 200)
    by (simpl; lia).
  assert (H2 : status_code (mkResponse 404 (JObj [("message", JStr "Not Found")])) <> 403)
    by (simpl; lia).
  assert (H3 : Forall full_page [repeat (JNum 0) 100])
    by (constructor; [reflexivity | constructor]).
  split; [exact H1 | split; [exact H2 | split; [exact H3 |]]].
  exact (proj1 (proj2
    (get_github_data_failure "o" "r" "pulls" "2024-01-01" "2024-01-31" ""
       (page_request "o" "r" "pulls" "2024-01-01" "2024-01-31" "")
       (mkResponse 404 (JObj [("message", JStr "Not Found")]))
       [] [] 1 [] [repeat (JNum 0) 100] H1 H2 H3))).
Defined.

Example failure_trace :
  get_github_data "o" "r" "pulls" "2024-01-01" "2024-01-31" ""
    (mkWorld [ok_page (repeat (JNum 0) 100); mkResponse 500 JNull] [])
  = Returns (repeat (JNum 0) 100)
      (mkWorld []
         (page_requests (page_request "o" "r" "pulls" "2024-01-01" "2024-01-31" "") 1 2
          ++ [Print "API request failed: 500"])).
Proof. vm_compute. reflexivity. Qed.

(** ** Dictionaries *)

Lemma key_eqb_refl k : key_eqb k k = true.
Proof.
  destruct k as [|b|n|s]; simpl;
    [reflexivity | apply Bool.eqb_reflx | apply Z.eqb_refl | apply String.eqb_refl].
Qed.

Lemma key_eqb_sym a b : key_eqb a b = key_eqb b a.
Proof.
  destruct a as [|x|n|s], b as [|y|m|t]; simpl; try reflexivity.
  - now destruct x, y.
  - apply Z.eqb_sym.
  - apply Z.eqb_sym.
  - apply Z.eqb_sym.
  - apply String.eqb_sym.
Qed.

Lemma key_eqb_trans a b c :
  key_eqb a b = true -> key_eqb b c = true -> key_eqb a c = true.
Proof.
  destruct a as [|x|n|s], b as [|y|m|t], c as [|z|p|u]; simpl;
    try discriminate; try reflexivity;
    rewrite ?Z.eqb_eq, ?String.eqb_eq, ?Bool.eqb_true_iff; try congruence.
  all: try (destruct x, y; simpl; congruence).
  all: try (destruct x, z; simpl; congruence).
  all: try (destruct y, z; simpl; congruence).
Qed.

Lemma key_eqb_congr a b c :
  key_eqb a b = true -> key_eqb c a = key_eqb c b.
Proof.
  intros Hab. destruct (key_eqb c b) eqn:E.
  - apply key_eqb_trans with b; [exact E | now rewrite key_eqb_sym].
  - destruct (key_eqb c a) eqn:E'; [|reflexivity].
    now rewrite (key_eqb_trans c a b E' Hab) in E.
Qed.

Section DictLemmas.
Context {V : Type}.
Implicit Types (d : dict V) (k : pykey) (v : V).

Lemma dict_get_congr k k' d :
  key_eqb k k' = true -> dict_get k d = dict_get k' d.
Proof.
  intros H. induction d as [|[k0 v0] d IH]; [reflexivity|].
  cbn [dict_get].
  rewrite (key_eqb_sym k k0), (key_eqb_sym k' k0), (key_eqb_congr k k' k0 H).
  now rewrite IH.
Qed.

Lemma dict_get_set k k' v d :
  dict_get k (dict_set k' v d)
  = if key_eqb k k' then Some v else dict_get k d.
Proof.
  induction d as [|[k0 v0] d IH]; cbn [dict_set dict_get].
  - reflexivity.
  - destruct (key_eqb k' k0) eqn:E0; cbn [dict_get].
    + rewrite <- (key_eqb_congr k' k0 k E0).
      now destruct (key_eqb k k').
    + rewrite IH. destruct (key_eqb k k0) eqn:E1; [|reflexivity].
      destruct (key_eqb k k') eqn:E2; [|reflexivity].
      rewrite key_eqb_sym in E2.
      now rewrite (key_eqb_trans k' k k0 E2 E1) in E0.
Qed.

Lemma dict_get_update k k' (f : V -> V) d :
  dict_get k (dict_update k' f d)
  = if key_eqb k k' then option_map f (dict_get k d) else dict_get k d.
Proof.
  induction d as [|[k0 v0] d IH]; cbn [dict_update dict_get].
  - now destruct (key_eqb k k').
  - destruct (key_eqb k' k0) eqn:E0; cbn [dict_get].
    + rewrite <- (key_eqb_congr k' k0 k E0).
      now destruct (key_eqb k k').
    + rewrite IH. destruct (key_eqb k k0) eqn:E1; [|reflexivity].
      destruct (key_eqb k k') eqn:E2; [|reflexivity].
      rewrite key_eqb_sym in E2.
      now rewrite (key_eqb_trans k' k k0 E2 E1) in E0.
Qed.

Lemma dict_set_fresh k v d :
  dict_get k d = None -> dict_set k v d = d ++ [(k, v)].
Proof.
  induction d as [|[k0 v0] d IH]; cbn [dict_get dict_set app]; [reflexivity|].
  destruct (key_eqb k k0); [discriminate|]. intros H. now rewrite IH.
Qed.

Lemma dict_update_fresh k (f : V -> V) d :
  dict_get k d = None -> dict_update k f d = d.
Proof.
  induction d as [|[k0 v0] d IH]; cbn [dict_get dict_update]; [reflexivity|].
  destruct (key_eqb k k0); [discriminate|]. intros H. now rewrite IH.
Qed.


Lemma dict_get_app k d d' :
  dict_get k (d ++ d')
  = match dict_get k d with Some v => Some v | None => dict_get k d' end.
Proof.
  induction d as [|[k0 v0] d IH]; cbn [dict_get app]; [reflexivity|].
  now destruct (key_eqb k k0).
Qed.

Lemma dict_wf_update k (f : V -> V) d : dict_wf d -> dict_wf (dict_update k f d).
Proof.
  induction d as [|[k0 v0] d IH]; cbn [dict_update dict_wf]; [trivial|].
  intros [Hk Hd]. destruct (key_eqb k k0) eqn:E; cbn [dict_wf].
  - now split.
  - split; [|now apply IH].
    rewrite dict_get_update. now destruct (key_eqb k0 k); rewrite Hk.
Qed.

Lemma dict_wf_set k v d : dict_wf d -> dict_wf (dict_set k v d).
Proof.
  induction d as [|[k0 v0] d IH]; cbn [dict_set dict_wf]; [now split|].
  intros [Hk Hd]. destruct (key_eqb k k0) eqn:E; cbn [dict_wf].
  - now split.
  - split; [|now apply IH].
    rewrite dict_get_set. rewrite key_eqb_sym, E. exact Hk.
Qed.

End DictLemmas.

Lemma dict_wf_ensure k d : dict_wf d -> dict_wf (ensure_entry k d).
Proof.
  intros H. unfold ensure_entry.
  destruct (dict_contains k d); [exact H | now apply dict_wf_set].
Qed.

Lemma dict_get_ensure k k' d :
  dict_get k (ensure_entry k' d)
  = if key_eqb k k'
    then Some (match dict_get k' d with Some c => c | None => zero_counters end)
    else dict_get k d.
Proof.
  unfold ensure_entry, dict_contains.
  destruct (dict_get k' d) as [c|] eqn:E.
  - destruct (key_eqb k k') eqn:Ek; [|reflexivity].
    now rewrite (dict_get_congr k k' d Ek).
  - now rewrite dict_get_set.
Qed.

Lemma ensure_entry_idem k d : ensure_entry k (ensure_entry k d) = ensure_entry k d.
Proof.
  unfold ensure_entry at 1. unfold dict_contains.
  now rewrite dict_get_ensure, key_eqb_refl.
Qed.


(** ** The merge of [main] *)

Lemma dict_get_merge_pr_entry user_stats user stats k :
  dict_get k (merge_pr_entry user_stats (user, stats))
  = if key_eqb k user
    then Some (let c := or_zero (dict_get user user_stats) in
               mkCounters (prs stats) (commits c) (lines c + lines stats))
    else dict_get k user_stats.
Proof.
  unfold merge_pr_entry. rewrite !dict_get_update, dict_get_ensure.
  now destruct (key_eqb k user).
Qed.

Lemma dict_get_merge_commit_entry user_stats user stats k :
  dict_get k (merge_commit_entry user_stats (user, stats))
  = if key_eqb k user
    then Some (let c := or_zero (dict_get user user_stats) in
               mkCounters (prs c) (commits stats) (lines c + lines stats))
    else dict_get k user_stats.
Proof.
  unfold merge_commit_entry. rewrite !dict_get_update, dict_get_ensure.
  now destruct (key_eqb k user).
Qed.

Section MergeLoop.
(** A loop [for user, stats in source.items()] whose body rewrites the
    entry of [user] from its old value and [stats]. *)
Variable step : dict counters -> pykey * counters -> dict counters.
Variable g : counters -> counters -> counters.
Hypothesis step_get : forall user_stats user stats k,
  dict_get k (step user_stats (user, stats))
  = if key_eqb k user
    then Some (g stats (or_zero (dict_get user user_stats)))
    else dict_get k user_stats.
Hypothesis step_wf : forall user_stats entry,
  dict_wf user_stats -> dict_wf (step user_stats entry).

Lemma merge_loop_get source : dict_wf source ->
  forall user_stats k,
    dict_get k (fold_left step source user_stats)
    = match dict_get k source with
      | Some stats => Some (g stats (or_zero (dict_get k user_stats)))
      | None => dict_get k user_stats
      end.
Proof.
  induction source as [|[user stats] source IH]; intros Hwf user_stats k.
  - reflexivity.
  - destruct Hwf as [Hfresh Hwf]. cbn [fold_left dict_get].
    rewrite (IH Hwf), step_get.
    destruct (key_eqb k user) eqn:E.
    + rewrite (dict_get_congr k user source E), Hfresh.
      now rewrite (dict_get_congr k user user_stats E).
    + reflexivity.
Qed.

Lemma merge_loop_wf source user_stats :
  dict_wf user_stats -> dict_wf (fold_left step source user_stats).
Proof.
  revert user_stats.
  induction source as [|entry source IH]; intros user_stats H; [exact H|].
  cbn [fold_left]. apply IH, step_wf, H.
Qed.
End MergeLoop.

Lemma merge_pr_entry_wf user_stats entry :
  dict_wf user_stats -> dict_wf (merge_pr_entry user_stats entry).
Proof.
  destruct entry as [user stats]. intros H. unfold merge_pr_entry.
  now apply dict_wf_update, dict_wf_update, dict_wf_ensure.
Qed.

Lemma merge_commit_entry_wf user_stats entry :
  dict_wf user_stats -> dict_wf (merge_commit_entry user_stats entry).
Proof.
  destruct entry as [user stats]. intros H. unfold merge_commit_entry.
  now apply dict_wf_update, dict_wf_update, dict_wf_ensure.
Qed.

(** C2. The merge is a union of keys: a contributor of the merged mapping
    is one of either source; its pull-request count is that of the
    pull-request mapping (0 when absent there), its commit count that of
    the commit mapping (0 when absent there), and its lines are the sum of
    the two sources' lines.  Merging {alice: prs=3, lines=10} with
    {alice: commits=5, lines=7} gives {alice: prs=3, commits=5, lines=17}. *)
Theorem merge_stats_union (pr_stats commit_stats : dict counters) :
  dict_wf pr_stats ->
  dict_wf commit_stats ->
  (forall user,
     dict_get user (merge_stats pr_stats commit_stats)
     = merged_entry (dict_get user pr_stats) (dict_get user commit_stats))
  /\ dict_wf (merge_stats pr_stats commit_stats)
  /\ merge_stats [(KStr "alice", mkCounters 3 0 10)] [(KStr "alice", mkCounters 0 5 7)]
     = [(KStr "alice", mkCounters 3 5 17)].
Proof.
  intros Hpr Hcm. split; [|split].
  - intros user. unfold merge_stats.
    rewrite (merge_loop_get merge_commit_entry
               (fun stats c => mkCounters (prs c) (commits stats) (lines c + lines stats))
               dict_get_merge_commit_entry commit_stats Hcm).
    rewrite (merge_loop_get merge_pr_entry
               (fun stats c => mkCounters (prs stats) (commits c) (lines c + lines stats))
               dict_get_merge_pr_entry pr_stats Hpr).
    destruct (dict_get user pr_stats) as [p|], (dict_get user commit_stats) as [c|];
      reflexivity.
  - unfold merge_stats.
    apply (merge_loop_wf merge_commit_entry merge_commit_entry_wf).
    apply (merge_loop_wf merge_pr_entry merge_pr_entry_wf). exact I.
  - reflexivity.
Qed.

Lemma merge_stats_union_witness :
  let pr_stats := [(KStr "alice", mkCounters 3 0 10); (KStr "bob", mkCounters 1 0 4)] in
  let commit_stats := [(KStr "carol", mkCounters 0 2 9); (KStr "alice", mkCounters 0 5 7)] in
  dict_wf pr_stats /\ dict_wf commit_stats /\
  dict_get (KStr "alice") (merge_stats pr_stats commit_stats) = Some (mkCounters 3 5 17) /\
  dict_get (KStr "bob") (merge_stats pr_stats commit_stats) = Some (mkCounters 1 0 4) /\
  dict_get (KStr "carol") (merge_stats pr_stats commit_stats) = Some (mkCounters 0 2 9).
Proof.
  assert (H1 : dict_wf [(KStr "alice", mkCounters 3 0 10); (KStr "bob", mkCounters 1 0 4)])
    by (simpl; auto).
  assert (H2 : dict_wf [(KStr "carol", mkCounters 0 2 9); (KStr "alice", mkCounters 0 5 7)])
    by (simpl; auto).
  split; [exact H1 | split; [exact H2 |]].
  destruct (merge_stats_union _ _ H1 H2) as [H _].
  cbv zeta. rewrite !H. repeat split.
Defined.

(** ** The sorted report *)

Lemma tuple_ltb_false a b : tuple_ltb a b = false -> lex_ge a b.
Proof.
  destruct a as [[a1 a2] a3], b as [[b1 b2] b3]. unfold tuple_ltb, lex_ge.
  rewrite !orb_false_iff, !andb_false_iff, !orb_false_iff, !andb_false_iff.
  rewrite !Z.ltb_ge, !Z.eqb_neq. lia.
Qed.

Lemma tuple_ltb_true a b : tuple_ltb a b = true -> lex_ge b a.
Proof.
  destruct a as [[a1 a2] a3], b as [[b1 b2] b3]. unfold tuple_ltb, lex_ge.
  rewrite !orb_true_iff, !andb_true_iff, !orb_true_iff, !andb_true_iff.
  rewrite !Z.ltb_lt, !Z.eqb_eq. lia.
Qed.

Lemma lex_ge_trans a b c : lex_ge a b -> lex_ge b c -> lex_ge a c.
Proof.
  destruct a as [[a1 a2] a3], b as [[b1 b2] b3], c as [[c1 c2] c3].
  unfold lex_ge. lia.
Qed.

Section SortedReverse.
Context {A : Type} (key : A -> Z * Z * Z).

Local Abbreviation ge := (ge_by key).

Lemma insert_desc_perm x l : Permutation (insert_desc key x l) (x :: l).
Proof.
  induction l as [|y l IH]; cbn [insert_desc]; [reflexivity|].
  destruct (tuple_ltb (key x) (key y)); [|reflexivity].
  rewrite IH. apply perm_swap.
Qed.

Lemma sorted_reverse_perm xs : Permutation (sorted_reverse key xs) xs.
Proof.
  induction xs as [|x xs IH]; cbn [sorted_reverse]; [reflexivity|].
  rewrite insert_desc_perm. now constructor.
Qed.

Lemma insert_desc_sorted x l :
  StronglySorted ge l -> StronglySorted ge (insert_desc key x l).
Proof.
  induction 1 as [|y l Hl IH Hy]; cbn [insert_desc].
  - repeat constructor.
  - destruct (tuple_ltb (key x) (key y)) eqn:E.
    + constructor; [exact IH|].
      apply (Permutation_Forall (Permutation_sym (insert_desc_perm x l))).
      constructor; [|exact Hy].
      now apply tuple_ltb_true.
    + apply tuple_ltb_false in E. unfold ge_by in *.
      constructor; [now constructor|].
      constructor; [exact E|].
      eapply Forall_impl; [|exact Hy].
      intros z Hz. exact (lex_ge_trans _ _ _ E Hz).
Qed.

Lemma sorted_reverse_sorted xs : StronglySorted ge (sorted_reverse key xs).
Proof.
  induction xs as [|x xs IH]; cbn [sorted_reverse]; [constructor|].
  now apply insert_desc_sorted.
Qed.

(** Stability: the entries of any one key come out in the order they
    went in. *)
Lemma insert_desc_stable t x l :
  filter (fun y => tuple_eqb (key y) t) (insert_desc key x l)
  = filter (fun y => tuple_eqb (key y) t) (x :: l).
Proof.
  induction l as [|y l IH]; cbn [insert_desc]; [reflexivity|].
  destruct (tuple_ltb (key x) (key y)) eqn:E; [|reflexivity].
  cbn [filter] in *. rewrite IH.
  destruct (tuple_eqb (key x) t) eqn:Ex; [|reflexivity].
  destruct (tuple_eqb (key y) t) eqn:Ey; [|reflexivity].
  exfalso. revert E Ex Ey.
  destruct (key x) as [[x1 x2] x3], (key y) as [[y1 y2] y3], t as [[t1 t2] t3].
  unfold tuple_ltb, tuple_eqb.
  rewrite !orb_true_iff, !andb_true_iff, !orb_true_iff, !andb_true_iff.
  rewrite !Z.ltb_lt, !Z.eqb_eq. lia.
Qed.

Lemma sorted_reverse_stable t xs :
  filter (fun y => tuple_eqb (key y) t) (sorted_reverse key xs)
  = filter (fun y => tuple_eqb (key y) t) xs.
Proof.
  induction xs as [|x xs IH]; cbn [sorted_reverse]; [reflexivity|].
  rewrite insert_desc_stable. cbn [filter]. now rewrite IH.
Qed.
End SortedReverse.

(** C3. The entries are reported in descending lexicographic order of
    (pull requests, commits, lines): every entry is reported, and of two
    reported entries the earlier has more pull requests, or as many and
    more commits, or as many of both and at least as many lines.  The
    entries a (2, 1, 5) and b (2, 3, 1) come out with b first. *)
Theorem sorted_users_descending (user_stats : dict counters) :
  Permutation (sorted_users user_stats) user_stats
  /\ StronglySorted key_ge (sorted_users user_stats)
  /\ (forall x y,
        key_ge x y <->
        prs (snd x) > prs (snd y)
        \/ (prs (snd x) = prs (snd y)
            /\ (commits (snd x) > commits (snd y)
                \/ (commits (snd x) = commits (snd y)
                    /\ lines (snd x) >= lines (snd y)))))
  /\ report user_stats
     = match user_stats with
       | [] => [no_contributions]
       | _ :: _ => report_header ++ map report_line (sorted_users user_stats)
       end
  /\ sorted_users [(KStr "a", mkCounters 2 1 5); (KStr "b", mkCounters 2 3 1)]
     = [(KStr "b", mkCounters 2 3 1); (KStr "a", mkCounters 2 1 5)].
Proof.
  split; [apply sorted_reverse_perm|].
  split; [apply sorted_reverse_sorted|].
  split; [|split; [|reflexivity]].
  - intros [ux [x1 x2 x3]] [uy [y1 y2 y3]]. reflexivity.
  - now destruct user_stats.
Qed.

(** X11. Entries whose three counters are all equal keep the order the merged
    mapping has them in. *)
Lemma sorted_users_stable (user_stats : dict counters) (t : Z * Z * Z) :
  filter (fun e => tuple_eqb (sort_key e) t) (sorted_users user_stats)
  = filter (fun e => tuple_eqb (sort_key e) t) user_stats.
Proof. apply sorted_reverse_stable. Qed.

Lemma print_all_trace texts w :
  print_all texts w = Returns tt (mkWorld (pending w) (trace w ++ map Print texts)).
Proof.
  revert w. induction texts as [|s texts IH]; intros [script tr].
  - cbn. now rewrite app_nil_r.
  - cbn [print_all]. unfold bind, print, emit. cbn [pending trace].
    rewrite IH. cbn [pending trace map]. now rewrite <- app_assoc.
Qed.

(** [main] ends by printing the report of the merged mapping. *)
Lemma main_prints_report owner repo start_date end_date token w user_stats w' :
  main_stats owner repo start_date end_date token w = Returns user_stats w' ->
  main owner repo start_date end_date token w
  = Returns tt (mkWorld (pending w') (trace w' ++ map Print (report user_stats))).
Proof.
  intros H. unfold main, bind. rewrite H. apply print_all_trace.
Qed.

(** C9, as the claim has it, fails on the text: on a repository with no
    pull request and no commit, what [main] prints is the text of line 152
    and not the words of the claim. *)
Lemma no_contributions_text_counterexample :
  let rq := fun endpoint =>
              page_request "o" "r" endpoint "2024-01-01" "2024-01-31" "" 1 in
  let printed :=
    [Get (rq "pulls"); Get (rq "commits");
     Print "No contributions found between the specified dates."] in
  main "o" "r" "2024-01-01" "2024-01-31" "" (mkWorld [ok_page []; ok_page []] [])
  = Returns tt (mkWorld [] printed)
  /\ ~ In (Print "no contributions found") printed.
Proof.
  cbv zeta. split; [reflexivity|].
  cbn [In]. intros [H | [H | [H | []]]]; discriminate H.
Qed.

(** C9, amended.  When [main] gets to its merged mapping it prints the
    report and returns.  For the empty mapping the report is the single
    text "No contributions found between the specified dates." and no
    contributor line.  For a mapping with entries it is the heading and a
    rule of 50 dashes, then one line per contributor in sorted order, each
    of the form [- user: P pull requests, C commits, L lines of code
    changed]. *)
Theorem main_report_lines owner repo start_date end_date token
  (w : world) (user_stats : dict counters) (w' : world) :
  main_stats owner repo start_date end_date token w = Returns user_stats w' ->
  main owner repo start_date end_date token w
  = Returns tt
      (mkWorld (pending w')
         (trace w'
          ++ match user_stats with
             | [] => [Print "No contributions found between the specified dates."]
             | _ :: _ =>
                 Print (newline ++ "Contributor Statistics:")%string
                 :: Print "--------------------------------------------------"
                 :: map (fun entry => Print (report_line entry))
                      (sorted_users user_stats)
             end))
  /\ Permutation (sorted_users user_stats) user_stats
  /\ List.length (map report_line (sorted_users user_stats))
     = List.length user_stats
  /\ forall user stats,
       report_line (user, stats)
       = ("- " ++ str_key user ++ ": "
          ++ str_int (prs stats) ++ " pull requests, "
          ++ str_int (commits stats) ++ " commits, "
          ++ str_int (lines stats) ++ " lines of code changed")%string.
Proof.
  intros H. split; [|split; [|split]].
  - rewrite (main_prints_report _ _ _ _ _ _ _ _ H). do 2 f_equal.
    destruct user_stats as [|entry rest]; [reflexivity|].
    cbn [report report_header app map]. rewrite map_map. reflexivity.
  - apply sorted_reverse_perm.
  - rewrite length_map. apply Permutation_length, sorted_reverse_perm.
  - reflexivity.
Qed.

Lemma main_report_lines_witness :
  let pr := JObj [("user", JObj [("login", JStr "alice")]); ("url", JStr "u1")] in
  let commit := JObj [("sha", JStr "abd"); ("author", JObj [("login", JStr "bob")])] in
  let script :=
    [ok_page [pr]; mkResponse 200 (JArr [JObj [("changes", JNum 7)]]);
     ok_page [commit; commit]; mkResponse 404 JNull; mkResponse 404 JNull] in
  let rq := fun endpoint =>
              page_request "o" "r" endpoint "2024-01-01" "2024-01-31" "" 1 in
  exists user_stats w',
    main_stats "o" "r" "2024-01-01" "2024-01-31" "" (mkWorld script [])
    = Returns user_stats w'
    /\ main "o" "r" "2024-01-01" "2024-01-31" "" (mkWorld script [])
       = Returns tt
           (mkWorld []
              [Get (rq "pulls");
               Get (mkRequest (Url "u1/files") None []);
               Get (rq "commits");
               Get (mkRequest (CommitUrl "o" "r" (JStr "abd")) None []);
               Print "Failed to fetch commit details: 404";
               Get (mkRequest (CommitUrl "o" "r" (JStr "abd")) None []);
               Print "Failed to fetch commit details: 404";
               Print (newline ++ "Contributor Statistics:")%string;
               Print "--------------------------------------------------";
               Print "- alice: 1 pull requests, 0 commits, 7 lines of code changed";
               Print "- bob: 0 pull requests, 2 commits, 0 lines of code changed"]).
Proof.
  cbv zeta. eexists. eexists. split; [vm_compute; reflexivity|].
  match goal with
  | |- main ?o ?r ?s ?e ?t ?w = _ =>
      rewrite (proj1 (main_report_lines o r s e t w _ _ eq_refl))
  end.
  vm_compute. reflexivity.
Defined.

(** ** Contributor identity *)

Lemma pulls_login_present kvs user_kvs l :
  assoc "user" kvs = Some (JObj user_kvs) ->
  assoc "login" user_kvs = Some l ->
  pulls_login (JObj kvs) = Ok l.
Proof. intros Hu Hl. unfold pulls_login. cbn. rewrite Hu. cbn. now rewrite Hl. Qed.

Lemma pulls_login_absent kvs :
  assoc "user" kvs = None
  \/ (exists user_kvs, assoc "user" kvs = Some (JObj user_kvs)
                       /\ assoc "login" user_kvs = None) ->
  pulls_login (JObj kvs) = Ok (JStr "unknown").
Proof.
  intros [Hu | (user_kvs & Hu & Hl)]; unfold pulls_login; cbn; rewrite Hu; cbn;
    [reflexivity | now rewrite Hl].
Qed.

(** The metadata name is used as it is when the chain of keys leads to
    one, and is "unknown" when a key of the chain is absent. *)
Lemma commit_author_name_present kvs commit_kvs author_kvs name :
  assoc "commit" kvs = Some (JObj commit_kvs) ->
  assoc "author" commit_kvs = Some (JObj author_kvs) ->
  assoc "name" author_kvs = Some name ->
  commit_author_name (JObj kvs) = Ok name.
Proof.
  intros Hc Ha Hn. unfold commit_author_name. cbn. rewrite Hc. cbn.
  rewrite Ha. cbn. now rewrite Hn.
Qed.

Lemma commit_author_name_absent kvs :
  assoc "commit" kvs = None
  \/ (exists commit_kvs, assoc "commit" kvs = Some (JObj commit_kvs)
        /\ (assoc "author" commit_kvs = None
            \/ exists author_kvs, assoc "author" commit_kvs = Some (JObj author_kvs)
                                  /\ assoc "name" author_kvs = None)) ->
  commit_author_name (JObj kvs) = Ok (JStr "unknown").
Proof.
  unfold commit_author_name. cbn.
  intros [Hc | (commit_kvs & Hc & [Ha | (author_kvs & Ha & Hn)])];
    rewrite Hc; cbn; try reflexivity; rewrite Ha; cbn; try reflexivity.
  now rewrite Hn.
Qed.

(** On a commit item whose [author] is absent or a dict, the identity is
    the login if it is there and truthy, and the metadata name
    otherwise. *)
Lemma commits_login_chain kvs :
  (forall author_kvs l,
     assoc "author" kvs = Some (JObj author_kvs) ->
     assoc "login" author_kvs = Some l ->
     truthy l = true ->
     commits_login (JObj kvs) = Ok l)
  /\ (forall author_kvs l,
        assoc "author" kvs = Some (JObj author_kvs) ->
        assoc "login" author_kvs = Some l ->
        truthy l = false ->
        commits_login (JObj kvs) = commit_author_name (JObj kvs))
  /\ (forall author_kvs,
        assoc "author" kvs = Some (JObj author_kvs) ->
        assoc "login" author_kvs = None ->
        commits_login (JObj kvs) = commit_author_name (JObj kvs))
  /\ (assoc "author" kvs = None ->
      commits_login (JObj kvs) = commit_author_name (JObj kvs)).
Proof.
  unfold commits_login. cbn [py_get rbind]. repeat split.
  - intros author_kvs l Ha Hl Ht. rewrite Ha. cbn. now rewrite Hl, Ht.
  - intros author_kvs l Ha Hl Ht. rewrite Ha. cbn. now rewrite Hl, Ht.
  - intros author_kvs Ha Hl. rewrite Ha. cbn. now rewrite Hl.
  - intros Ha. now rewrite Ha.
Qed.

Example commits_login_carol :
  commits_login
    (JObj [("sha", JStr "abc");
           ("author", JObj [("login", JStr "carol")]);
           ("commit", JObj [("author", JObj [("name", JStr "Carol S.")])])])
  = Ok (JStr "carol").
Proof. reflexivity. Qed.

Example commits_login_jane_without_author_key :
  commits_login
    (JObj [("sha", JStr "abd");
           ("commit", JObj [("author", JObj [("name", JStr "Jane Doe")])])])
  = Ok (JStr "Jane Doe").
Proof. reflexivity. Qed.

Lemma process_item_login_raises owner repo endpoint token user_stats item e w :
  item_login endpoint item = Raise e ->
  process_item owner repo endpoint token user_stats item w = Raises e w.
Proof. intros H. unfold process_item, bind, lift. now rewrite H. Qed.

(** C10. A pull-request item whose [user] field is there and null has no
    identity: line 62 raises [AttributeError] instead of giving "unknown",
    so the step of the aggregation on that item, and with it the whole
    loop, ends in the exception. *)
Theorem pulls_null_user_raises (kvs : list (string * json)) :
  assoc "user" kvs = Some JNull ->
  pulls_login (JObj kvs) = Raise AttributeError
  /\ pulls_login (JObj kvs) <> Ok (JStr "unknown")
  /\ (forall owner repo token user_stats w,
        process_item owner repo "pulls" token user_stats (JObj kvs) w
        = Raises AttributeError w)
  /\ (forall owner repo token rest user_stats w,
        aggregate_items owner repo "pulls" token (JObj kvs :: rest) user_stats w
        = Raises AttributeError w).
Proof.
  intros Hu.
  assert (H : pulls_login (JObj kvs) = Raise AttributeError).
  { unfold pulls_login. cbn. now rewrite Hu. }
  split; [exact H|]. split; [rewrite H; discriminate|].
  assert (Hstep : forall owner repo token user_stats w,
    process_item owner repo "pulls" token user_stats (JObj kvs) w
    = Raises AttributeError w).
  { intros. now apply process_item_login_raises. }
  split; [exact Hstep|].
  intros. cbn [aggregate_items]. unfold bind. now rewrite Hstep.
Qed.

Lemma pulls_null_user_raises_witness :
  let kvs := [("number", JNum 7); ("user", JNull); ("url", JStr "u7")] in
  assoc "user" kvs = Some JNull /\
  get_user_stats_per_endpoint "o" "r" "pulls" "2024-01-01" "2024-01-31" ""
    (mkWorld [ok_page [JObj kvs]; ok_page []] [])
  = Raises AttributeError
      (mkWorld [ok_page []]
         [Get (page_request "o" "r" "pulls" "2024-01-01" "2024-01-31" "" 1)]).
Proof.
  assert (H : assoc "user" [("number", JNum 7); ("user", JNull); ("url", JStr "u7")]
              = Some JNull) by reflexivity.
  split; [exact H|].
  destruct (pulls_null_user_raises _ H) as (_ & _ & _ & Hloop).
  cbv zeta. unfold get_user_stats_per_endpoint, bind.
  change (get_github_data "o" "r" "pulls" "2024-01-01" "2024-01-31" ""
            (mkWorld [ok_page [JObj [("number", JNum 7); ("user", JNull);
                                     ("url", JStr "u7")]]; ok_page []] []))
    with (Returns [JObj [("number", JNum 7); ("user", JNull); ("url", JStr "u7")]]
            (mkWorld [ok_page []]
               [Get (page_request "o" "r" "pulls" "2024-01-01" "2024-01-31" "" 1)])).
  cbv beta iota. apply Hloop.
Defined.

(** C5, at a commit the API reports without a platform account
    ([author] is null) and with the metadata name "Jane Doe": lines 64 and
    83 raise [AttributeError], the name is never reached. *)
Theorem commits_null_author_raises :
  let item :=
    JObj [("sha", JStr "abd");
          ("author", JNull);
          ("commit", JObj [("author", JObj [("name", JStr "Jane Doe")])])] in
  commits_login item = Raise AttributeError
  /\ commit_author_name item = Ok (JStr "Jane Doe")
  /\ (forall owner repo token user_stats w,
        process_item owner repo "commits" token user_stats item w
        = Raises AttributeError w)
  /\ get_user_stats_per_endpoint "o" "r" "commits" "2024-01-01" "2024-01-31" ""
       (mkWorld [ok_page [item]] [])
     = Raises AttributeError
         (mkWorld []
            [Get (page_request "o" "r" "commits" "2024-01-01" "2024-01-31" "" 1)]).
Proof.
  cbv zeta. split; [reflexivity|]. split; [reflexivity|]. split; [|reflexivity].
  intros. now apply process_item_login_raises.
Qed.

(** C4, as the claim has it, fails on a pull request whose login is the
    empty string: the identity is the empty string, not "unknown", and the
    contributor is counted under the blank key. *)
Lemma blank_login_counterexample :
  let item := JObj [("user", JObj [("login", JStr "")]); ("url", JStr "u1")] in
  item_login "pulls" item = Ok (JStr "")
  /\ item_login "pulls" item <> Ok (JStr "unknown")
  /\ returned
       (get_user_stats_per_endpoint "o" "r" "pulls" "2024-01-01" "2024-01-31" ""
          (mkWorld [ok_page [item]; ok_page []] []))
     = Some [(KStr "", mkCounters 1 0 0)].
Proof.
  cbv zeta. split; [reflexivity|]. split; [discriminate | reflexivity].
Qed.

(** C4, amended.  The items covered are those whose identity fields are
    absent or dicts.  On a commit item whose author is a dict, a login
    that is there and falsy counts as absent: the identity is the name of
    the commit metadata, as it is, when the metadata and its author are
    dicts and the name is there, and it is "unknown" when the [commit]
    key, the metadata's [author] key or the [name] key is absent.  On a
    pull-request item whose user is a dict, a login that is there is the
    identity as it is, falsy or not; the identity is "unknown" when the
    [user] key or the [login] key is absent. *)
Theorem falsy_login_fallback
  (kvs author_kvs commit_kvs commit_author_kvs pr_kvs user_kvs : list (string * json))
  (l name : json) :
  assoc "login" author_kvs = Some l ->
  truthy l = false ->
  (assoc "author" kvs = Some (JObj author_kvs) ->
     (assoc "commit" kvs = Some (JObj commit_kvs) ->
      assoc "author" commit_kvs = Some (JObj commit_author_kvs) ->
      assoc "name" commit_author_kvs = Some name ->
      commits_login (JObj kvs) = Ok name)
     /\ (assoc "commit" kvs = Some (JObj commit_kvs) ->
         assoc "author" commit_kvs = Some (JObj commit_author_kvs) ->
         assoc "name" commit_author_kvs = None ->
         commits_login (JObj kvs) = Ok (JStr "unknown"))
     /\ (assoc "commit" kvs = Some (JObj commit_kvs) ->
         assoc "author" commit_kvs = None ->
         commits_login (JObj kvs) = Ok (JStr "unknown"))
     /\ (assoc "commit" kvs = None ->
         commits_login (JObj kvs) = Ok (JStr "unknown")))
  /\ (assoc "user" kvs = Some (JObj author_kvs) ->
        pulls_login (JObj kvs) = Ok l)
  /\ (assoc "user" pr_kvs = None ->
        pulls_login (JObj pr_kvs) = Ok (JStr "unknown"))
  /\ (assoc "user" pr_kvs = Some (JObj user_kvs) ->
        assoc "login" user_kvs = None ->
        pulls_login (JObj pr_kvs) = Ok (JStr "unknown")).
Proof.
  intros Hl Ht. split; [|split; [|split]].
  - intros Ha.
    assert (H : commits_login (JObj kvs) = commit_author_name (JObj kvs)).
    { destruct (commits_login_chain kvs) as (_ & H & _). now apply (H author_kvs l). }
    rewrite H. split; [|split; [|split]].
    + intros Hc Hca Hn.
      now apply (commit_author_name_present kvs commit_kvs commit_author_kvs).
    + intros Hc Hca Hn. apply commit_author_name_absent. right.
      exists commit_kvs. split; [exact Hc|]. right. now exists commit_author_kvs.
    + intros Hc Hca. apply commit_author_name_absent. right.
      exists commit_kvs. split; [exact Hc | now left].
    + intros Hc. apply commit_author_name_absent. now left.
  - intros Hu. now apply (pulls_login_present kvs author_kvs).
  - intros Hu. apply pulls_login_absent. now left.
  - intros Hu Hlogin. apply pulls_login_absent. right. now exists user_kvs.
Qed.

Lemma falsy_login_fallback_witness :
  let author_kvs := [("login", JStr "")] in
  let commit_author_kvs := [("name", JStr "Jane Doe")] in
  let commit_kvs := [("author", JObj commit_author_kvs)] in
  let kvs := [("sha", JStr "abe"); ("author", JObj author_kvs);
              ("user", JObj author_kvs); ("commit", JObj commit_kvs)] in
  let pr_kvs := [("url", JStr "u1"); ("user", JObj [("id", JNum 7)])] in
  assoc "login" author_kvs = Some (JStr "") /\ truthy (JStr "") = false /\
  assoc "author" kvs = Some (JObj author_kvs) /\
  assoc "user" kvs = Some (JObj author_kvs) /\
  commits_login (JObj kvs) = Ok (JStr "Jane Doe") /\
  pulls_login (JObj kvs) = Ok (JStr "") /\
  pulls_login (JObj pr_kvs) = Ok (JStr "unknown").
Proof.
  cbv zeta.
  destruct (falsy_login_fallback
              [("sha", JStr "abe"); ("author", JObj [("login", JStr "")]);
               ("user", JObj [("login", JStr "")]);
               ("commit", JObj [("author", JObj [("name", JStr "Jane Doe")])])]
              [("login", JStr "")]
              [("author", JObj [("name", JStr "Jane Doe")])]
              [("name", JStr "Jane Doe")]
              [("url", JStr "u1"); ("user", JObj [("id", JNum 7)])]
              [("id", JNum 7)]
              (JStr "") (JStr "Jane Doe") eq_refl eq_refl)
    as (Hc & Hp & _ & Hnologin).
  destruct (Hc eq_refl) as (Hname & _).
  do 4 (split; [reflexivity|]). split; [|split].
  - exact (Hname eq_refl eq_refl eq_refl).
  - exact (Hp eq_refl).
  - exact (Hnologin eq_refl eq_refl).
Defined.

(** ** The invariant of the report *)

Lemma bind_returns {A B} (m : M A) (f : A -> M B) w b w' :
  bind m f w = Returns b w' ->
  exists a w1, m w = Returns a w1 /\ f a w1 = Returns b w'.
Proof.
  unfold bind. destruct (m w) as [a w1|e w1|w1]; try discriminate.
  intros H. now exists a, w1.
Qed.

Lemma lift_returns {A} (r : result A) w a w' :
  lift r w = Returns a w' -> r = Ok a /\ w' = w.
Proof.
  unfold lift. destruct r; [|discriminate]. intros H. now inversion H.
Qed.

Lemma ret_returns {A} (a b : A) w w' :
  ret a w = Returns b w' -> b = a /\ w' = w.
Proof. unfold ret. intros H. now inversion H. Qed.







Lemma main_stats_returns owner repo start_date end_date token w user_stats w' :
  main_stats owner repo start_date end_date token w = Returns user_stats w' ->
  exists pr_stats commit_stats w1,
    get_user_stats_per_endpoint owner repo "pulls" start_date end_date token w
    = Returns pr_stats w1
    /\ get_user_stats_per_endpoint owner repo "commits" start_date end_date token w1
       = Returns commit_stats w'
    /\ user_stats = merge_stats pr_stats commit_stats.
Proof.
  unfold main_stats. intros H.
  apply bind_returns in H. destruct H as (pr_stats & w1 & Hpr & H).
  apply bind_returns in H. destruct H as (commit_stats & w2 & Hcm & H).
  apply ret_returns in H. destruct H as [-> ->].
  now exists pr_stats, commit_stats, w1.
Qed.




(** * Further properties of the code *)

(** ** [get_github_data] on any script *)

Lemma get_github_data_loop_continues rq r script tr page items :
  continues r = true ->
  exists tr' page',
    get_github_data_loop rq (r :: script) tr page items
    = get_github_data_loop rq script tr' page' (items ++ page_items r)
    /\ (exists evs, tr' = tr ++ evs /\ count_requests evs = 1%nat)
    /\ (page' = page \/ page' = page + 1).
Proof.
  unfold continues, page_items. intros H. cbn [get_github_data_loop].
  destruct (status_code r =? 200) eqn:E200.
  - destruct (py_iter (body r)) as [data|e]; [|discriminate].
    apply negb_true_iff in H. rewrite H.
    exists (tr ++ [Get (rq page)]), (page + 1). split; [reflexivity|].
    split; [|now right]. now exists [Get (rq page)].
  - rewrite H. rewrite app_nil_r.
    exists ((tr ++ [Get (rq page)]) ++ [Print rate_limit_message; Sleep 60]), page.
    split; [reflexivity|]. split; [|now left].
    exists [Get (rq page); Print rate_limit_message; Sleep 60].
    split; [now rewrite <- app_assoc | reflexivity].
Qed.

(** X1. The loop ends at the first response that is neither a rate limit nor
    a 200 with at least 100 items.  It has then consumed the script up to
    that response with one request per response, and it returns all the
    items of the 200 responses in order, or raises [TypeError] when that
    last response is a 200 whose body cannot be iterated. *)
Theorem get_github_data_loop_ends rq (pre : list response) (t : response)
  (rest : list response) (tr : list event) (page : Z) (items : list json) :
  Forall (fun r => continues r = true) pre ->
  continues t = false ->
  let o := get_github_data_loop rq (pre ++ t :: rest) tr page items in
  pending (final_world o) = rest
  /\ (exists evs, trace (final_world o) = tr ++ evs
                  /\ count_requests evs = S (List.length pre))
  /\ returned o
     = (if status_code t =? 200 then
          match py_iter (body t) with
          | Ok data => Some (items ++ gathered pre ++ data)
          | Raise _ => None
          end
        else Some (items ++ gathered pre))
  /\ raised o
     = (if status_code t =? 200 then
          match py_iter (body t) with
          | Ok _ => None
          | Raise e => Some e
          end
        else None).
Proof.
  intros Hpre Ht. cbv zeta. revert tr page items.
  induction Hpre as [|r pre Hr _ IH]; intros tr page items.
  - cbn [app gathered flat_map List.length]. rewrite app_nil_r.
    unfold continues in Ht. cbn [get_github_data_loop].
    destruct (status_code t =? 200) eqn:E200.
    + destruct (py_iter (body t)) as [data|e].
      * apply negb_false_iff in Ht. rewrite Ht. cbn.
        repeat split. now exists [Get (rq page)].
      * cbn. repeat split. now exists [Get (rq page)].
    + rewrite Ht. cbn. repeat split.
      exists [Get (rq page); Print (failure_message (status_code t))].
      split; [now rewrite <- app_assoc | reflexivity].
  - cbn [app].
    destruct (get_github_data_loop_continues rq r (pre ++ t :: rest) tr page items Hr)
      as (tr' & page' & -> & (evs & -> & Hevs) & _).
    destruct (IH (tr ++ evs) page' (items ++ page_items r))
      as (Hp & (evs' & Htr & Hn) & Hret & Hraise).
    split; [exact Hp|]. split.
    + exists (evs ++ evs'). split; [now rewrite Htr, app_assoc|].
      rewrite count_requests_app, Hevs, Hn. reflexivity.
    + cbn [gathered flat_map]. fold (gathered pre).
      rewrite Hret, Hraise.
      destruct (status_code t =? 200); [destruct (py_iter (body t))|];
        rewrite <- ?app_assoc; now split.
Qed.

Lemma get_github_data_loop_ends_witness :
  let rq := page_request "o" "r" "pulls" "2024-01-01" "2024-01-31" "" in
  let pre := [mkResponse 403 JNull; ok_page (repeat (JNum 1) 100);
              mkResponse 403 JNull;
              mkResponse 200 (JStr (repeat_text 100 e_acute))] in
  let t := mkResponse 200 (JStr (repeat_text 60 e_acute)) in
  Forall (fun r => continues r = true) pre /\ continues t = false /\
  option_map (@List.length json)
    (returned (get_github_data_loop rq (pre ++ t :: [ok_page []]) [] 1 []))
  = Some 260%nat
  /\ raised (get_github_data_loop rq (pre ++ mkResponse 200 JNull :: []) [] 1 [])
     = Some TypeError.
Proof.
  assert (Hpre : Forall (fun r => continues r = true)
                   [mkResponse 403 JNull; ok_page (repeat (JNum 1) 100);
                    mkResponse 403 JNull;
                    mkResponse 200 (JStr (repeat_text 100 e_acute))])
    by (repeat constructor).
  assert (Ht : continues (mkResponse 200 (JStr (repeat_text 60 e_acute))) = false)
    by reflexivity.
  assert (Hn : continues (mkResponse 200 JNull) = false) by reflexivity.
  split; [exact Hpre | split; [exact Ht |]]. cbv zeta. split.
  - rewrite (proj1 (proj2 (proj2
      (get_github_data_loop_ends
         (page_request "o" "r" "pulls" "2024-01-01" "2024-01-31" "")
         _ _ [ok_page []] [] 1 [] Hpre Ht)))).
    vm_compute. reflexivity.
  - exact (proj2 (proj2 (proj2
      (get_github_data_loop_ends
         (page_request "o" "r" "pulls" "2024-01-01" "2024-01-31" "")
         _ _ [] [] 1 [] Hpre Hn)))).
Defined.

(** X2. While every response is a rate limit or a page of at least 100 items
    the call has not come back: it has used up the script and waits for
    the answer to one more request. *)
Theorem get_github_data_loop_waits rq (script : list response) (tr : list event)
  (page : Z) (items : list json) :
  Forall (fun r => continues r = true) script ->
  exists w,
    get_github_data_loop rq script tr page items = Blocked w
    /\ pending w = []
    /\ exists evs, trace w = tr ++ evs
                   /\ count_requests evs = S (List.length script).
Proof.
  intros H. revert tr page items.
  induction H as [|r script Hr _ IH]; intros tr page items.
  - cbn. eexists. split; [reflexivity|]. split; [reflexivity|].
    now exists [Get (rq page)].
  - destruct (get_github_data_loop_continues rq r script tr page items Hr)
      as (tr' & page' & -> & (evs & -> & Hevs) & _).
    destruct (IH (tr ++ evs) page' (items ++ page_items r))
      as (w & -> & Hp & evs' & Htr & Hn).
    exists w. split; [reflexivity|]. split; [exact Hp|].
    exists (evs ++ evs'). split; [now rewrite Htr, app_assoc|].
    rewrite count_requests_app, Hevs, Hn. reflexivity.
Qed.

Lemma get_github_data_loop_waits_witness :
  let script := [ok_page (repeat JNull 100); mkResponse 403 JNull;
                 mkResponse 200 (JStr (repeat_text 100 e_acute))] in
  Forall (fun r => continues r = true) script /\
  exists w,
    get_github_data_loop (page_request "o" "r" "pulls" "2024-01-01" "2024-01-31" "")
      script [] 1 [] = Blocked w
    /\ pending w = []
    /\ exists evs, trace w = [] ++ evs /\ count_requests evs = 4%nat.
Proof.
  assert (H : Forall (fun r => continues r = true)
                [ok_page (repeat JNull 100); mkResponse 403 JNull;
                 mkResponse 200 (JStr (repeat_text 100 e_acute))])
    by (repeat constructor).
  split; [exact H|].
  exact (get_github_data_loop_waits
           (page_request "o" "r" "pulls" "2024-01-01" "2024-01-31" "")
           _ [] 1 [] H).
Defined.

(** X3. Rate limits do not change what the caller gets: the value returned, or
    the exception raised, is the same as on the script with every 403
    response taken out. *)
Theorem get_github_data_rate_limit_transparent
  owner repo endpoint start_date end_date token (script : list response)
  (tr tr' : list event) :
  let calm := filter (fun r => negb (is_rate_limit r)) script in
  returned (get_github_data owner repo endpoint start_date end_date token
              (mkWorld script tr))
  = returned (get_github_data owner repo endpoint start_date end_date token
                (mkWorld calm tr'))
  /\ raised (get_github_data owner repo endpoint start_date end_date token
               (mkWorld script tr))
     = raised (get_github_data owner repo endpoint start_date end_date token
                 (mkWorld calm tr')).
Proof.
  cbv zeta. unfold get_github_data. cbn [pending trace].
  generalize (page_request owner repo endpoint start_date end_date token) as rq.
  intros rq. generalize 1 as page. generalize (@nil json) as items.
  revert tr tr'.
  induction script as [|r script IH]; intros tr tr' items page.
  - cbn. now split.
  - cbn [filter].
    destruct (is_rate_limit r) eqn:E403; unfold is_rate_limit in E403.
    + cbn [negb]. apply Z.eqb_eq in E403.
      rewrite (get_github_data_loop_403 rq r script tr page items E403).
      apply IH.
    + cbn [negb get_github_data_loop]. rewrite E403.
      destruct (status_code r =? 200).
      * destruct (py_iter (body r)) as [data|e]; [|now split].
        destruct (Z.of_nat (List.length data) <? 100); [now split | apply IH].
      * now split.
Qed.

(** ** What a run may do *)

Section Emits.
Variable Q : event -> Prop.

Lemma emits_ret {A} (a : A) : emits Q (ret a).
Proof. intros w. exists []. cbn. now rewrite app_nil_r. Qed.

Lemma emits_lift {A} (r : result A) : emits Q (lift r).
Proof. intros w. exists []. destruct r; cbn; now rewrite app_nil_r. Qed.

Lemma emits_bind {A B} (m : M A) (f : A -> M B) :
  emits Q m -> (forall a, emits Q (f a)) -> emits Q (bind m f).
Proof.
  intros Hm Hf w. unfold bind. destruct (Hm w) as (evs & Htr & Hevs).
  destruct (m w) as [a w1|e w1|w1]; cbn [final_world] in *.
  - destruct (Hf a w1) as (evs' & Htr' & Hevs').
    exists (evs ++ evs'). split; [now rewrite Htr', Htr, app_assoc|].
    apply Forall_app. now split.
  - now exists evs.
  - now exists evs.
Qed.

Lemma emits_print s : Q (Print s) -> emits Q (print s).
Proof. intros H w. exists [Print s]. cbn. now repeat constructor. Qed.

Lemma emits_requests_get rq : Q (Get rq) -> emits Q (requests_get rq).
Proof.
  intros H w. exists [Get rq]. unfold requests_get.
  destruct (pending w); cbn; now repeat constructor.
Qed.

Lemma emits_print_all texts : (forall s, Q (Print s)) -> emits Q (print_all texts).
Proof.
  intros H. induction texts as [|s texts IH]; cbn [print_all].
  - apply emits_ret.
  - apply emits_bind; [now apply emits_print | intros _; exact IH].
Qed.

Lemma emits_get_github_data_loop rq script :
  forall tr page items,
    (forall p, page <= p -> Q (Get (rq p))) ->
    (forall s, Q (Print s)) ->
    Q (Sleep 60) ->
    exists evs,
      trace (final_world (get_github_data_loop rq script tr page items)) = tr ++ evs
      /\ Forall Q evs.
Proof.
  induction script as [|r script IH]; intros tr page items Hget Hprint Hsleep.
  - exists [Get (rq page)]. cbn. split; [reflexivity|].
    repeat constructor. apply Hget. lia.
  - cbn [get_github_data_loop].
    assert (Hq : Q (Get (rq page))) by (apply Hget; lia).
    destruct (status_code r =? 200).
    + destruct (py_iter (body r)) as [data|e].
      * destruct (Z.of_nat (List.length data) <? 100).
        -- exists [Get (rq page)]. cbn. now repeat constructor.
        -- destruct (IH (tr ++ [Get (rq page)]) (page + 1) (items ++ data))
             as (evs & Htr & Hevs); try assumption.
           { intros p Hp. apply Hget. lia. }
           exists (Get (rq page) :: evs). rewrite Htr, <- app_assoc.
           split; [reflexivity | now constructor].
      * exists [Get (rq page)]. cbn. now repeat constructor.
    + destruct (status_code r =? 403).
      * destruct (IH ((tr ++ [Get (rq page)]) ++ [Print rate_limit_message; Sleep 60])
                    page items) as (evs & Htr & Hevs); try assumption.
        exists (Get (rq page) :: Print rate_limit_message :: Sleep 60 :: evs).
        rewrite Htr, <- !app_assoc. split; [reflexivity|].
        repeat constructor; auto.
      * exists [Get (rq page); Print (failure_message (status_code r))].
        cbn. rewrite <- app_assoc. split; [reflexivity|].
        repeat constructor; auto.
Qed.
End Emits.

Lemma polite_page_request owner repo endpoint start_date end_date token p :
  1 <= p ->
  polite start_date end_date token
    (Get (page_request owner repo endpoint start_date end_date token p)).
Proof. intros H. cbn. repeat split. exact H. Qed.

Lemma polite_plain_request start_date end_date token u :
  polite start_date end_date token (Get (mkRequest u None (auth_headers token))).
Proof. cbn. now split. Qed.

Lemma emits_get_github_data owner repo endpoint start_date end_date token :
  emits (polite start_date end_date token)
    (get_github_data owner repo endpoint start_date end_date token).
Proof.
  intros w. unfold get_github_data.
  apply emits_get_github_data_loop.
  - intros p Hp. now apply polite_page_request.
  - intros s. exact I.
  - reflexivity.
Qed.

Lemma emits_get_commit_details owner repo sha start_date end_date token :
  emits (polite start_date end_date token) (get_commit_details owner repo sha token).
Proof.
  unfold get_commit_details.
  apply emits_bind; [apply emits_requests_get, polite_plain_request|].
  intros response. destruct (status_code response =? 200).
  - repeat (apply emits_bind; [apply emits_lift | intros ?]). apply emits_ret.
  - apply emits_bind; [now apply emits_print | intros _; apply emits_ret].
Qed.

Lemma emits_process_item owner repo endpoint start_date end_date token user_stats item :
  emits (polite start_date end_date token)
    (process_item owner repo endpoint token user_stats item).
Proof.
  unfold process_item.
  do 2 (apply emits_bind; [apply emits_lift | intros ?]).
  destruct (String.eqb endpoint "pulls").
  - do 2 (apply emits_bind; [apply emits_lift | intros ?]).
    apply emits_bind; [apply emits_requests_get, polite_plain_request|].
    intros pr_response. destruct (status_code pr_response =? 200).
    + do 2 (apply emits_bind; [apply emits_lift | intros ?]). apply emits_ret.
    + apply emits_ret.
  - destruct (String.eqb endpoint "commits"); [|apply emits_ret].
    do 3 (apply emits_bind; [apply emits_lift | intros ?]).
    apply emits_bind; [apply emits_get_commit_details|]. intros details.
    do 2 (apply emits_bind; [apply emits_lift | intros ?]). apply emits_ret.
Qed.

Lemma emits_aggregate_items owner repo endpoint start_date end_date token items :
  forall user_stats,
    emits (polite start_date end_date token)
      (aggregate_items owner repo endpoint token items user_stats).
Proof.
  induction items as [|item items IH]; intros user_stats; cbn [aggregate_items].
  - apply emits_ret.
  - apply emits_bind; [apply emits_process_item | intros us; apply IH].
Qed.

Lemma emits_get_user_stats_per_endpoint owner repo endpoint start_date end_date token :
  emits (polite start_date end_date token)
    (get_user_stats_per_endpoint owner repo endpoint start_date end_date token).
Proof.
  unfold get_user_stats_per_endpoint.
  apply emits_bind; [apply emits_get_github_data|].
  intros items. apply emits_aggregate_items.
Qed.

(** X5. On every script, and whether it returns, raises or is still waiting,
    [main] sends every request with the headers of the token (none when
    the token is empty), asks the two lists for pages of 100 numbered from
    1 within the date range, and never sleeps other than 60 seconds. *)
Theorem main_polite owner repo start_date end_date token (w : world) :
  exists evs,
    trace (final_world (main owner repo start_date end_date token w))
    = trace w ++ evs
    /\ Forall (polite start_date end_date token) evs.
Proof.
  revert w. change (emits (polite start_date end_date token)
                      (main owner repo start_date end_date token)).
  unfold main, main_stats.
  apply emits_bind.
  - apply emits_bind; [apply emits_get_user_stats_per_endpoint|]. intros pr_stats.
    apply emits_bind; [apply emits_get_user_stats_per_endpoint|]. intros commit_stats.
    apply emits_ret.
  - intros user_stats. apply emits_print_all. intros s. exact I.
Qed.

(** X4. The pages [get_github_data] asks for start at 1, and each request is
    for the page of the request before it or for the next page: no page
    is skipped and none is gone back to. *)
Theorem get_github_data_pages_in_order
  owner repo endpoint start_date end_date token (w : world) :
  exists evs l,
    trace (final_world
             (get_github_data owner repo endpoint start_date end_date token w))
    = trace w ++ evs
    /\ requested_pages evs = 1 :: l
    /\ slow_climb 1 l.
Proof.
  unfold get_github_data.
  set (rq := page_request owner repo endpoint start_date end_date token).
  generalize (trace w) as tr. generalize 1 as page. generalize (@nil json) as items.
  induction (pending w) as [|r script IH]; intros items page tr.
  - exists [Get (rq page)], []. cbn. now repeat split.
  - cbn [get_github_data_loop].
    destruct (status_code r =? 200).
    + destruct (py_iter (body r)) as [data|e].
      * destruct (Z.of_nat (List.length data) <? 100).
        -- exists [Get (rq page)], []. cbn. now repeat split.
        -- destruct (IH (items ++ data) (page + 1) (tr ++ [Get (rq page)]))
             as (evs & l & Htr & Hpages & Hclimb).
           exists (Get (rq page) :: evs), (page + 1 :: l).
           rewrite Htr, <- app_assoc. split; [reflexivity|].
           change (requested_pages (Get (rq page) :: evs))
             with (page :: requested_pages evs).
           rewrite Hpages.
           split; [reflexivity|]. cbn. split; [now right | exact Hclimb].
      * exists [Get (rq page)], []. cbn. now repeat split.
    + destruct (status_code r =? 403).
      * destruct (IH items page ((tr ++ [Get (rq page)])
                                  ++ [Print rate_limit_message; Sleep 60]))
          as (evs & l & Htr & Hpages & Hclimb).
        exists (Get (rq page) :: Print rate_limit_message :: Sleep 60 :: evs),
          (page :: l).
        rewrite Htr, <- !app_assoc. split; [reflexivity|].
        change (requested_pages
                  (Get (rq page) :: Print rate_limit_message :: Sleep 60 :: evs))
          with (page :: requested_pages evs).
        rewrite Hpages.
        split; [reflexivity|]. cbn. split; [now left | exact Hclimb].
      * exists [Get (rq page); Print (failure_message (status_code r))], [].
        cbn. rewrite <- app_assoc. now repeat split.
Qed.

(** ** [get_user_stats_per_endpoint]: what the loop counts *)

Lemma add_lines_0 c : add_lines 0 c = c.
Proof. destruct c as [p c l]. unfold add_lines. cbn. f_equal. lia. Qed.

Lemma dict_update_id {V} k (f : V -> V) (d : dict V) :
  (forall v, f v = v) -> dict_update k f d = d.
Proof.
  intros Hf. induction d as [|[k0 v0] d IH]; cbn [dict_update]; [reflexivity|].
  destruct (key_eqb k k0); [now rewrite Hf | now rewrite IH].
Qed.

Lemma item_key_commits_login endpoint item k :
  String.eqb endpoint "pulls" = false ->
  String.eqb endpoint "commits" = true ->
  item_key endpoint item = Ok k ->
  exists user_login, commits_login item = Ok user_login /\ hash_key user_login = Ok k.
Proof.
  unfold item_key, item_login. intros -> ->.
  destruct (commits_login item) as [j|e]; cbn; [|discriminate].
  intros H. now exists j.
Qed.

(** A turn of the loop that completes has used one response, the one to
    the item's extra request, and has credited the item. *)
Lemma process_item_returns_credit
  owner repo endpoint token user_stats item w user_stats' w' :
  process_item owner repo endpoint token user_stats item w = Returns user_stats' w' ->
  exists r c,
    pending w = r :: pending w'
    /\ item_credit endpoint item r = Ok c
    /\ user_stats' = credit endpoint user_stats c.
Proof.
  unfold process_item, item_credit, item_key, credit, bump. intros H.
  apply bind_returns in H. destruct H as (j & w1 & Hj & H).
  apply lift_returns in Hj. destruct Hj as [Hj ->].
  apply bind_returns in H. destruct H as (k & w1 & Hk & H).
  apply lift_returns in Hk. destruct Hk as [Hk ->].
  rewrite Hj. cbn [rbind]. rewrite Hk. cbn [rbind].
  destruct (String.eqb endpoint "pulls") eqn:Ep.
  - apply bind_returns in H. destruct H as (u & w1 & Hu & H).
    apply lift_returns in Hu. destruct Hu as [Hu ->].
    apply bind_returns in H. destruct H as (fu & w1 & Hfu & H).
    apply lift_returns in Hfu. destruct Hfu as [Hfu ->].
    apply bind_returns in H. destruct H as (resp & w1 & Hget & H).
    unfold requests_get in Hget. destruct (pending w) as [|r rest] eqn:Hw; [discriminate|].
    inversion Hget. subst resp w1. clear Hget.
    rewrite Hu. cbn [rbind]. rewrite Hfu. cbn [rbind]. unfold pr_files_lines.
    destruct (status_code r =? 200) eqn:E200.
    + apply bind_returns in H. destruct H as (files & w1 & Hfiles & H).
      apply lift_returns in Hfiles. destruct Hfiles as [Hfiles ->].
      apply bind_returns in H. destruct H as (n & w1 & Hn & H).
      apply lift_returns in Hn. destruct Hn as [Hn ->].
      apply ret_returns in H. destruct H as [-> ->].
      exists r, (k, n). cbn [pending fst snd]. rewrite E200, Hfiles. cbn [rbind].
      rewrite Hn. now repeat split.
    + apply ret_returns in H. destruct H as [-> ->].
      exists r, (k, 0). cbn [pending fst snd]. rewrite E200. cbn [rbind].
      repeat split. symmetry. apply dict_update_id, add_lines_0.
  - destruct (String.eqb endpoint "commits") eqn:Ec.
    + unfold item_login in Hj. rewrite Ep, Ec in Hj.
      apply bind_returns in H. destruct H as (j' & w1 & Hj' & H).
      apply lift_returns in Hj'. destruct Hj' as [Hj' ->].
      assert (j' = j) by congruence. subst j'.
      apply bind_returns in H. destruct H as (k' & w1 & Hk' & H).
      apply lift_returns in Hk'. destruct Hk' as [Hk' ->].
      assert (k' = k) by congruence. subst k'.
      rewrite ensure_entry_idem in H.
      apply bind_returns in H. destruct H as (sha & w1 & Hsha & H).
      apply lift_returns in Hsha. destruct Hsha as [Hsha ->].
      apply bind_returns in H. destruct H as (details & w1 & Hdet & H).
      apply bind_returns in H. destruct H as (total & w2 & Htotal & H).
      apply lift_returns in Htotal. destruct Htotal as [Htotal ->].
      apply bind_returns in H. destruct H as (n & w2 & Hn & H).
      apply lift_returns in Hn. destruct Hn as [Hn ->].
      apply ret_returns in H. destruct H as [-> ->].
      unfold get_commit_details in Hdet.
      apply bind_returns in Hdet. destruct Hdet as (resp & w2 & Hget & Hdet).
      unfold requests_get in Hget.
      destruct (pending w) as [|r rest] eqn:Hw; [discriminate|].
      inversion Hget. subst resp w2. clear Hget.
      unfold commit_lines.
      destruct (status_code r =? 200) eqn:E200.
      * apply bind_returns in Hdet. destruct Hdet as (stats & w2 & Hs & Hdet).
        apply lift_returns in Hs. destruct Hs as [Hs ->].
        apply bind_returns in Hdet. destruct Hdet as (a & w2 & Ha & Hdet).
        apply lift_returns in Ha. destruct Ha as [Ha ->].
        apply bind_returns in Hdet. destruct Hdet as (stats' & w2 & Hs' & Hdet).
        apply lift_returns in Hs'. destruct Hs' as [Hs' ->].
        apply bind_returns in Hdet. destruct Hdet as (d & w2 & Hd & Hdet).
        apply lift_returns in Hd. destruct Hd as [Hd ->].
        apply ret_returns in Hdet. destruct Hdet as [-> ->].
        cbn [fst snd body] in *.
        assert (stats' = stats) by congruence. subst stats'.
        exists r, (k, n). cbn [pending fst snd]. rewrite E200.
        rewrite Hs. cbn [rbind]. rewrite Ha. cbn [rbind].
        rewrite Hd. cbn [rbind]. rewrite Htotal. cbn [rbind]. rewrite Hn.
        now repeat split.
      * apply bind_returns in Hdet. destruct Hdet as (u & w2 & Hprint & Hdet).
        apply ret_returns in Hdet. destruct Hdet as [-> ->].
        unfold print, emit in Hprint. inversion Hprint. subst w2. clear Hprint.
        cbn in Htotal. inversion Htotal. subst total.
        cbn in Hn. inversion Hn. subst n.
        exists r, (k, 0). cbn [pending fst snd]. rewrite E200. now repeat split.
    + apply ret_returns in H. destruct H as [-> ->].
      unfold item_login in Hj. rewrite Ep, Ec in Hj. discriminate.
Qed.

Lemma bind_lift_ok {A B} (r : result A) (f : A -> M B) a w :
  r = Ok a -> bind (lift r) f w = f a w.
Proof. intros ->. reflexivity. Qed.

Lemma bind_requests_get {B} rq (f : response -> M B) r rest tr :
  bind (requests_get rq) f (mkWorld (r :: rest) tr)
  = f r (mkWorld rest (tr ++ [Get rq])).
Proof. reflexivity. Qed.

(** Conversely, a turn whose item has a credit completes, with that
    credit. *)
Lemma process_item_credit owner repo endpoint token user_stats item r rest tr c :
  item_credit endpoint item r = Ok c ->
  exists tr',
    process_item owner repo endpoint token user_stats item (mkWorld (r :: rest) tr)
    = Returns (credit endpoint user_stats c) (mkWorld rest tr').
Proof.
  unfold item_credit, item_key, process_item, credit, bump. intros H.
  destruct (item_login endpoint item) as [j|e] eqn:Hj; [|discriminate].
  cbn [rbind] in H.
  destruct (hash_key j) as [k|e] eqn:Hk; [|discriminate].
  cbn [rbind] in H.
  rewrite (bind_lift_ok _ _ j _ eq_refl), (bind_lift_ok _ _ k _ Hk).
  destruct (String.eqb endpoint "pulls") eqn:Ep.
  - destruct (py_get item "url" JNull) as [u|e] eqn:Hu; [|discriminate].
    cbn [rbind] in H.
    destruct (files_url u) as [fu|e] eqn:Hfu; [|discriminate].
    cbn [rbind] in H. unfold pr_files_lines in H.
    rewrite (bind_lift_ok _ _ u _ eq_refl), (bind_lift_ok _ _ fu _ Hfu).
    rewrite bind_requests_get. cbv beta.
    destruct (status_code r =? 200).
    + destruct (py_iter (body r)) as [files|e] eqn:Hfiles; [|discriminate].
      cbn [rbind] in H.
      destruct (sum_changes 0 files) as [n|e] eqn:Hn; [|discriminate].
      inversion H. subst c. cbn [fst snd]. eexists.
      rewrite (bind_lift_ok _ _ files _ eq_refl), (bind_lift_ok _ _ n _ Hn).
      reflexivity.
    + inversion H. subst c. cbn [fst snd]. eexists.
      rewrite (dict_update_id k (add_lines 0) _ add_lines_0).
      reflexivity.
  - destruct (String.eqb endpoint "commits") eqn:Ec; [|discriminate].
    unfold item_login in Hj. rewrite Ep, Ec in Hj.
    assert (Hitem : exists kvs, item = JObj kvs).
    { unfold commits_login in Hj. destruct item; try discriminate. now eexists. }
    destruct Hitem as (kvs & ->).
    rewrite (bind_lift_ok _ _ j _ Hj), (bind_lift_ok _ _ k _ Hk).
    rewrite ensure_entry_idem. cbn [py_get].
    rewrite (bind_lift_ok _ _ _ _ eq_refl).
    unfold get_commit_details. unfold bind at 1. rewrite bind_requests_get. cbv beta.
    unfold commit_lines in H.
    destruct (status_code r =? 200).
    + destruct (py_get (body r) "stats" (JObj [])) as [stats|e] eqn:Hs; [|discriminate].
      cbn [rbind] in H.
      destruct (py_get stats "additions" (JNum 0)) as [a|e] eqn:Ha; [|discriminate].
      cbn [rbind] in H.
      destruct (py_get stats "deletions" (JNum 0)) as [d|e] eqn:Hd; [|discriminate].
      cbn [rbind] in H.
      destruct (py_add a d) as [total|e] eqn:Ht; [|discriminate].
      cbn [rbind] in H.
      destruct (py_int total) as [n|e] eqn:Hn; [|discriminate].
      inversion H. subst c. cbn [fst snd]. eexists.
      rewrite (bind_lift_ok _ _ stats _ eq_refl), (bind_lift_ok _ _ a _ Ha).
      rewrite (bind_lift_ok _ _ stats _ eq_refl), (bind_lift_ok _ _ d _ Hd).
      unfold ret at 1. cbn [fst snd].
      rewrite (bind_lift_ok _ _ total _ Ht), (bind_lift_ok _ _ n _ Hn).
      reflexivity.
    + inversion H. subst c. cbn [fst snd]. eexists.
      reflexivity.
Qed.

Lemma dict_get_credit endpoint user_stats k' n k :
  dict_get k (credit endpoint user_stats (k', n))
  = if key_eqb k k'
    then Some (add_lines n (bump endpoint (or_zero (dict_get k user_stats))))
    else dict_get k user_stats.
Proof.
  unfold credit. cbn [fst snd]. rewrite !dict_get_update, dict_get_ensure.
  destruct (key_eqb k k') eqn:E; [|reflexivity].
  cbn [option_map]. now rewrite (dict_get_congr k k' user_stats E).
Qed.

Lemma tally_nil endpoint c : tally endpoint [] c = c.
Proof.
  unfold tally. destruct c as [p c l]. cbn [prs commits lines List.length zsum fold_right].
  destruct (String.eqb endpoint "pulls"); f_equal; lia.
Qed.

Lemma tally_cons endpoint n ns c :
  tally endpoint ns (add_lines n (bump endpoint c)) = tally endpoint (n :: ns) c.
Proof.
  unfold tally, bump, add_lines, incr_prs, incr_commits. destruct c as [p c l].
  cbn [List.length zsum fold_right]. rewrite Nat2Z.inj_succ.
  fold (zsum ns).
  destruct (String.eqb endpoint "pulls"); cbn [prs commits lines]; f_equal; lia.
Qed.

Lemma dict_get_credits endpoint cs :
  forall user_stats k,
    dict_get k (fold_left (credit endpoint) cs user_stats)
    = tallied endpoint (credits_of k cs) (dict_get k user_stats).
Proof.
  induction cs as [|[k' n] cs IH]; intros user_stats k; [reflexivity|].
  cbn [fold_left]. rewrite IH, dict_get_credit.
  unfold credits_of. cbn [filter fst].
  destruct (key_eqb k k'); [|reflexivity].
  cbn [map snd]. fold (credits_of k cs).
  unfold tallied at 2.
  rewrite <- tally_cons.
  destruct (credits_of k cs) as [|m ns]; cbn [tallied or_zero]; [|reflexivity].
  now rewrite tally_nil.
Qed.

Lemma item_credits_length endpoint items :
  forall responses cs,
    item_credits endpoint items responses = Some cs ->
    List.length cs = List.length items.
Proof.
  induction items as [|item items IH]; intros responses cs H; cbn in H.
  - now inversion H.
  - destruct responses as [|r responses]; [discriminate|].
    destruct (item_credit endpoint item r); [|discriminate].
    destruct (item_credits endpoint items responses) as [cs'|] eqn:E; [|discriminate].
    inversion H. cbn. f_equal. exact (IH _ _ E).
Qed.

Lemma aggregate_items_returns_credits owner repo endpoint token items :
  forall user_stats w user_stats' w',
    aggregate_items owner repo endpoint token items user_stats w
    = Returns user_stats' w' ->
    exists cs,
      item_credits endpoint items (pending w) = Some cs
      /\ pending w' = skipn (List.length items) (pending w)
      /\ user_stats' = fold_left (credit endpoint) cs user_stats.
Proof.
  induction items as [|item items IH]; intros user_stats w user_stats' w' H.
  - cbn in H. apply ret_returns in H. destruct H as [-> ->]. now exists [].
  - cbn [aggregate_items] in H. apply bind_returns in H.
    destruct H as (us1 & w1 & Hstep & H).
    destruct (process_item_returns_credit _ _ _ _ _ _ _ _ _ Hstep)
      as (r & c & Hw & Hc & ->).
    destruct (IH _ _ _ _ H) as (cs & Hcs & Hp & ->).
    exists (c :: cs). rewrite Hw. cbn [item_credits skipn List.length].
    rewrite Hc, Hcs. now repeat split.
Qed.

Lemma aggregate_items_credits owner repo endpoint token items :
  forall user_stats w cs,
    item_credits endpoint items (pending w) = Some cs ->
    exists w',
      aggregate_items owner repo endpoint token items user_stats w
      = Returns (fold_left (credit endpoint) cs user_stats) w'
      /\ pending w' = skipn (List.length items) (pending w).
Proof.
  induction items as [|item items IH]; intros user_stats [script tr] cs H.
  - cbn in H. inversion H. now exists (mkWorld script tr).
  - cbn [item_credits pending] in H.
    destruct script as [|r rest]; [discriminate|].
    destruct (item_credit endpoint item r) as [c|e] eqn:Hc; [|discriminate].
    destruct (item_credits endpoint items rest) as [cs'|] eqn:Hcs; [|discriminate].
    inversion H. subst cs. clear H.
    destruct (process_item_credit owner repo endpoint token user_stats item r rest tr c Hc)
      as (tr' & Hstep).
    destruct (IH (credit endpoint user_stats c) (mkWorld rest tr') cs' Hcs)
      as (w' & Hloop & Hp).
    exists w'. cbn [aggregate_items]. unfold bind. rewrite Hstep.
    now split.
Qed.

(** X6. When [get_user_stats_per_endpoint] returns, it has fetched a list of
    items and then used one response per item; every item has been
    credited to its key, and the entry of a key counts the items credited
    to it in the endpoint's counter, sums their lines, and has 0 in the
    other counter.  A key no item is credited to has no entry. *)
Theorem get_user_stats_per_endpoint_tally
  owner repo endpoint start_date end_date token w user_stats w' :
  get_user_stats_per_endpoint owner repo endpoint start_date end_date token w
  = Returns user_stats w' ->
  exists items w1 cs,
    get_github_data owner repo endpoint start_date end_date token w
    = Returns items w1
    /\ item_credits endpoint items (pending w1) = Some cs
    /\ pending w' = skipn (List.length items) (pending w1)
    /\ forall k,
         dict_get k user_stats
         = match credits_of k cs with
           | [] => None
           | ns =>
               Some (if String.eqb endpoint "pulls"
                     then mkCounters (Z.of_nat (List.length ns)) 0 (zsum ns)
                     else mkCounters 0 (Z.of_nat (List.length ns)) (zsum ns))
           end.
Proof.
  unfold get_user_stats_per_endpoint. intros H.
  apply bind_returns in H. destruct H as (items & w1 & Hitems & H).
  destruct (aggregate_items_returns_credits _ _ _ _ _ _ _ _ _ H)
    as (cs & Hcs & Hp & ->).
  exists items, w1, cs. repeat split; try assumption.
  intros k. rewrite dict_get_credits. cbn [dict_get].
  destruct (credits_of k cs) as [|n ns]; [reflexivity|].
  unfold tallied, tally, or_zero, zero_counters. cbn [prs commits lines].
  now destruct (String.eqb endpoint "pulls").
Qed.

Lemma get_user_stats_per_endpoint_tally_witness :
  let pr login u := JObj [("user", JObj [("login", JStr login)]); ("url", JStr u)] in
  let files ns := mkResponse 200 (JArr (map (fun n => JObj [("changes", JNum n)]) ns)) in
  let script :=
    [ok_page [pr "alice" "u1"; pr "alice" "u2"; pr "bob" "u3"];
     files [4; 6]; files []; mkResponse 404 JNull] in
  exists user_stats w',
    get_user_stats_per_endpoint "o" "r" "pulls" "2024-01-01" "2024-01-31" ""
      (mkWorld script []) = Returns user_stats w'
    /\ dict_get (KStr "alice") user_stats = Some (mkCounters 2 0 10)
    /\ dict_get (KStr "bob") user_stats = Some (mkCounters 1 0 0)
    /\ dict_get (KStr "carol") user_stats = None.
Proof.
  cbv zeta. eexists. eexists. split; [vm_compute; reflexivity|].
  match goal with
  | |- context [dict_get _ ?us] =>
      destruct (get_user_stats_per_endpoint_tally
                  "o" "r" "pulls" "2024-01-01" "2024-01-31" ""
                  (mkWorld
                     [ok_page [JObj [("user", JObj [("login", JStr "alice")]); ("url", JStr "u1")];
                               JObj [("user", JObj [("login", JStr "alice")]); ("url", JStr "u2")];
                               JObj [("user", JObj [("login", JStr "bob")]); ("url", JStr "u3")]];
                      mkResponse 200 (JArr [JObj [("changes", JNum 4)]; JObj [("changes", JNum 6)]]);
                      mkResponse 200 (JArr []); mkResponse 404 JNull] [])
                  us _ eq_refl) as (items & w1 & cs & Hitems & Hcs & _ & Hget)
  end.
  vm_compute in Hitems. inversion Hitems. subst items w1. clear Hitems.
  vm_compute in Hcs. inversion Hcs. subst cs. clear Hcs.
  rewrite !Hget. repeat split.
Defined.

(** X7. Conversely the call returns as soon as the fetch of the list returns
    and every item has a credit with the response of its turn: its
    identity is hashable, a pull request has a textual [url], and the
    body of a 200 response has the fields of the right kinds. *)
Theorem get_user_stats_per_endpoint_returns
  owner repo endpoint start_date end_date token w items w1 cs :
  get_github_data owner repo endpoint start_date end_date token w = Returns items w1 ->
  item_credits endpoint items (pending w1) = Some cs ->
  exists w',
    get_user_stats_per_endpoint owner repo endpoint start_date end_date token w
    = Returns (fold_left (credit endpoint) cs []) w'
    /\ pending w' = skipn (List.length items) (pending w1).
Proof.
  intros Hitems Hcs. unfold get_user_stats_per_endpoint, bind. rewrite Hitems.
  now apply aggregate_items_credits.
Qed.

Lemma get_user_stats_per_endpoint_returns_witness :
  let commit := JObj [("sha", JStr "abc"); ("author", JObj [("login", JStr "carol")])] in
  let detail := mkResponse 200
                  (JObj [("stats", JObj [("additions", JNum 3); ("deletions", JBool true)])]) in
  exists w',
    get_user_stats_per_endpoint "o" "r" "commits" "2024-01-01" "2024-01-31" "t"
      (mkWorld [ok_page [commit; commit]; detail; mkResponse 403 JNull] [])
    = Returns [(KStr "carol", mkCounters 0 2 4)] w'
    /\ pending w' = [].
Proof.
  cbv zeta.
  exact (get_user_stats_per_endpoint_returns
           "o" "r" "commits" "2024-01-01" "2024-01-31" "t"
           (mkWorld
              [ok_page [JObj [("sha", JStr "abc"); ("author", JObj [("login", JStr "carol")])];
                        JObj [("sha", JStr "abc"); ("author", JObj [("login", JStr "carol")])]];
               mkResponse 200
                 (JObj [("stats", JObj [("additions", JNum 3); ("deletions", JBool true)])]);
               mkResponse 403 JNull] [])
           _ _ [(KStr "carol", 4); (KStr "carol", 0)] eq_refl eq_refl).
Defined.

(** ** Totals *)

Lemma zsum_app l l' : zsum (l ++ l') = zsum l + zsum l'.
Proof.
  unfold zsum. induction l as [|x l IH]; cbn [app fold_right]; [reflexivity|].
  rewrite IH. lia.
Qed.

Lemma total_app f d d' : total f (d ++ d') = total f d + total f d'.
Proof. unfold total. now rewrite map_app, zsum_app. Qed.

Lemma total_ensure f k d :
  f zero_counters = 0 -> total f (ensure_entry k d) = total f d.
Proof.
  intros H0. unfold ensure_entry, dict_contains.
  destruct (dict_get k d) eqn:E; [reflexivity|].
  rewrite (dict_set_fresh k _ d E), total_app. unfold total at 2. cbn.
  rewrite H0. lia.
Qed.

Lemma total_update f g delta k d :
  (forall c, f (g c) = f c + delta) ->
  total f (dict_update k g d)
  = total f d + (if dict_contains k d then delta else 0).
Proof.
  intros Hg. unfold total, dict_contains.
  induction d as [|[k0 c0] d IH]; cbn [dict_update dict_get map zsum fold_right snd].
  - reflexivity.
  - destruct (key_eqb k k0); cbn [map zsum fold_right snd].
    + rewrite Hg. lia.
    + fold (zsum (map (fun e => f (snd e)) (dict_update k g d))).
      fold (zsum (map (fun e => f (snd e)) d)).
      rewrite IH. lia.
Qed.

Lemma dict_contains_ensure k d : dict_contains k (ensure_entry k d) = true.
Proof. unfold dict_contains. now rewrite dict_get_ensure, key_eqb_refl. Qed.

Lemma dict_contains_update {V} k k' (g : V -> V) (d : dict V) :
  dict_contains k (dict_update k' g d) = dict_contains k d.
Proof.
  unfold dict_contains. rewrite dict_get_update.
  destruct (key_eqb k k'); [|reflexivity]. now destruct (dict_get k d).
Qed.

Lemma total_credit f endpoint user_stats k n delta :
  f zero_counters = 0 ->
  (forall c, f (add_lines n (bump endpoint c)) = f c + delta) ->
  total f (credit endpoint user_stats (k, n)) = total f user_stats + delta.
Proof.
  intros H0 Hd. unfold credit. cbn [fst snd].
  assert (Hcomp : forall d,
    dict_update k (add_lines n) (dict_update k (bump endpoint) d)
    = dict_update k (fun c => add_lines n (bump endpoint c)) d).
  { induction d as [|[k0 c0] d IH]; cbn [dict_update]; [reflexivity|].
    destruct (key_eqb k k0) eqn:E; cbn [dict_update]; rewrite E; [reflexivity|].
    now rewrite IH. }
  rewrite Hcomp, (total_update f _ delta); [|exact Hd].
  now rewrite dict_contains_ensure, total_ensure.
Qed.

Lemma total_credits f endpoint (step : Z -> Z) cs :
  f zero_counters = 0 ->
  (forall n c, f (add_lines n (bump endpoint c)) = f c + step n) ->
  forall user_stats,
    total f (fold_left (credit endpoint) cs user_stats)
    = total f user_stats + zsum (map (fun c => step (snd c)) cs).
Proof.
  intros H0 Hstep.
  induction cs as [|[k n] cs IH]; intros user_stats; cbn [fold_left map zsum fold_right].
  - lia.
  - fold (zsum (map (fun c => step (snd c)) cs)).
    rewrite IH, (total_credit f endpoint user_stats k n (step n) H0 (Hstep n)).
    cbn [snd]. lia.
Qed.

Lemma zsum_const_1 {A} (l : list A) : zsum (map (fun _ => 1) l) = Z.of_nat (List.length l).
Proof.
  induction l as [|x l IH]; [reflexivity|].
  cbn [map zsum fold_right List.length]. fold (zsum (map (fun _ : A => 1) l)).
  rewrite IH. lia.
Qed.

Lemma zsum_const_0 {A} (l : list A) : zsum (map (fun _ => 0) l) = 0.
Proof.
  induction l as [|x l IH]; [reflexivity|].
  cbn [map zsum fold_right]. fold (zsum (map (fun _ : A => 0) l)). rewrite IH. lia.
Qed.

(** X8. Over the whole mapping an endpoint returns, its own counter adds up
    to the number of items fetched, the other counter to 0, and the lines
    to the sum of the items' lines: every item is counted once. *)
Theorem get_user_stats_per_endpoint_totals
  owner repo endpoint start_date end_date token w user_stats w' :
  get_user_stats_per_endpoint owner repo endpoint start_date end_date token w
  = Returns user_stats w' ->
  exists items w1 cs,
    get_github_data owner repo endpoint start_date end_date token w
    = Returns items w1
    /\ item_credits endpoint items (pending w1) = Some cs
    /\ total (own_counter endpoint) user_stats = Z.of_nat (List.length items)
    /\ total (other_counter endpoint) user_stats = 0
    /\ total lines user_stats = zsum (map snd cs).
Proof.
  unfold get_user_stats_per_endpoint. intros H.
  apply bind_returns in H. destruct H as (items & w1 & Hitems & H).
  destruct (aggregate_items_returns_credits _ _ _ _ _ _ _ _ _ H)
    as (cs & Hcs & _ & ->).
  exists items, w1, cs. split; [exact Hitems|]. split; [exact Hcs|].
  split; [|split].
  - rewrite (total_credits _ endpoint (fun _ => 1)).
    + rewrite zsum_const_1, (item_credits_length _ _ _ _ Hcs). reflexivity.
    + unfold own_counter. now destruct (String.eqb endpoint "pulls").
    + intros n [p c l]. unfold own_counter, bump.
      now destruct (String.eqb endpoint "pulls").
  - rewrite (total_credits _ endpoint (fun _ => 0)).
    + now rewrite zsum_const_0.
    + unfold other_counter. now destruct (String.eqb endpoint "pulls").
    + intros n [p c l]. unfold other_counter, bump.
      destruct (String.eqb endpoint "pulls"); cbn; lia.
  - rewrite (total_credits _ endpoint (fun n => n)).
    + reflexivity.
    + reflexivity.
    + intros n [p c l]. unfold bump.
      now destruct (String.eqb endpoint "pulls").
Qed.

Lemma get_user_stats_per_endpoint_totals_witness :
  let commit login := JObj [("sha", JStr "abc"); ("author", JObj [("login", JStr login)])] in
  let detail a d := mkResponse 200
                      (JObj [("stats", JObj [("additions", JNum a); ("deletions", JNum d)])]) in
  exists user_stats w',
    get_user_stats_per_endpoint "o" "r" "commits" "2024-01-01" "2024-01-31" ""
      (mkWorld [ok_page [commit "carol"; commit "dave"; commit "carol"];
                detail 1 2; detail 3 4; mkResponse 500 JNull] [])
    = Returns user_stats w'
    /\ total commits user_stats = 3
    /\ total prs user_stats = 0
    /\ total lines user_stats = 10.
Proof.
  cbv zeta. eexists. eexists. split; [vm_compute; reflexivity|].
  match goal with
  | |- context [total commits ?us] =>
      destruct (get_user_stats_per_endpoint_totals
                  "o" "r" "commits" "2024-01-01" "2024-01-31" ""
                  (mkWorld
                     [ok_page [JObj [("sha", JStr "abc"); ("author", JObj [("login", JStr "carol")])];
                               JObj [("sha", JStr "abc"); ("author", JObj [("login", JStr "dave")])];
                               JObj [("sha", JStr "abc"); ("author", JObj [("login", JStr "carol")])]];
                      mkResponse 200
                        (JObj [("stats", JObj [("additions", JNum 1); ("deletions", JNum 2)])]);
                      mkResponse 200
                        (JObj [("stats", JObj [("additions", JNum 3); ("deletions", JNum 4)])]);
                      mkResponse 500 JNull] [])
                  us _ eq_refl) as (items & w1 & cs & Hitems & Hcs & Hown & Hother & Hlines)
  end.
  vm_compute in Hitems. inversion Hitems. subst items w1. clear Hitems.
  vm_compute in Hcs. inversion Hcs. subst cs. clear Hcs.
  split; [exact Hown|]. split; [exact Hother | exact Hlines].
Defined.

(** X9. The merge loses and invents no line: the lines of the merged mapping
    add up to those of the two mappings together. *)
Theorem merge_stats_total_lines (pr_stats commit_stats : dict counters) :
  total lines (merge_stats pr_stats commit_stats)
  = total lines pr_stats + total lines commit_stats.
Proof.
  unfold merge_stats.
  assert (Hpr : forall user_stats entry,
    total lines (merge_pr_entry user_stats entry)
    = total lines user_stats + lines (snd entry)).
  { intros user_stats [user stats]. unfold merge_pr_entry. cbn [snd].
    rewrite (total_update lines _ (lines stats)); [|reflexivity].
    rewrite dict_contains_update, dict_contains_ensure.
    rewrite (total_update lines _ 0); [|intros c; cbn; lia].
    rewrite total_ensure; [|reflexivity].
    destruct (dict_contains user (ensure_entry user user_stats)); lia. }
  assert (Hcm : forall user_stats entry,
    total lines (merge_commit_entry user_stats entry)
    = total lines user_stats + lines (snd entry)).
  { intros user_stats [user stats]. unfold merge_commit_entry. cbn [snd].
    rewrite (total_update lines _ (lines stats)); [|reflexivity].
    rewrite dict_contains_update, dict_contains_ensure.
    rewrite (total_update lines _ 0); [|intros c; cbn; lia].
    rewrite total_ensure; [|reflexivity].
    destruct (dict_contains user (ensure_entry user user_stats)); lia. }
  assert (Hfold : forall step source user_stats,
    (forall us entry, total lines (step us entry) = total lines us + lines (snd entry)) ->
    total lines (fold_left step source user_stats)
    = total lines user_stats + total lines source).
  { intros step source. induction source as [|entry source IH]; intros us Hstep.
    - cbn [fold_left]. change (total lines []) with 0. lia.
    - cbn [fold_left]. rewrite IH, Hstep; [|exact Hstep].
      change (total lines (entry :: source))
        with (lines (snd entry) + total lines source).
      lia. }
  rewrite (Hfold _ _ _ Hcm), (Hfold _ _ _ Hpr).
  change (total lines []) with 0. lia.
Qed.

(** ** Edge behaviour of the aggregation *)

(** X12. With an endpoint other than "pulls" and "commits" the loop raises
    [UnboundLocalError] at the first item, before any request; with no
    item it returns the mapping unchanged. *)
Theorem aggregate_items_other_endpoint owner repo endpoint token
  (items : list json) (user_stats : dict counters) (w : world) :
  endpoint <> "pulls" ->
  endpoint <> "commits" ->
  aggregate_items owner repo endpoint token items user_stats w
  = match items with
    | [] => Returns user_stats w
    | _ :: _ => Raises UnboundLocalError w
    end.
Proof.
  intros Hp Hc. destruct items as [|item items]; [reflexivity|].
  cbn [aggregate_items]. unfold bind at 1.
  rewrite (process_item_login_raises _ _ _ _ _ _ UnboundLocalError); [reflexivity|].
  unfold item_login.
  destruct (String.eqb endpoint "pulls") eqn:E1; [now apply String.eqb_eq in E1|].
  destruct (String.eqb endpoint "commits") eqn:E2; [now apply String.eqb_eq in E2|].
  reflexivity.
Qed.

Lemma aggregate_items_other_endpoint_witness :
  "issues" <> "pulls" /\ "issues" <> "commits" /\
  get_user_stats_per_endpoint "o" "r" "issues" "2024-01-01" "2024-01-31" ""
    (mkWorld [ok_page [JObj [("user", JObj [("login", JStr "alice")])]]] [])
  = Raises UnboundLocalError
      (mkWorld [] [Get (page_request "o" "r" "issues" "2024-01-01" "2024-01-31" "" 1)]).
Proof.
  assert (H1 : "issues" <> "pulls") by discriminate.
  assert (H2 : "issues" <> "commits") by discriminate.
  split; [exact H1 | split; [exact H2 |]].
  unfold get_user_stats_per_endpoint, bind.
  change (get_github_data "o" "r" "issues" "2024-01-01" "2024-01-31" ""
            (mkWorld [ok_page [JObj [("user", JObj [("login", JStr "alice")])]]] []))
    with (Returns [JObj [("user", JObj [("login", JStr "alice")])]]
            (mkWorld [] [Get (page_request "o" "r" "issues" "2024-01-01" "2024-01-31" "" 1)])).
  cbv beta iota.
  exact (aggregate_items_other_endpoint "o" "r" "issues" "" _ [] _ H1 H2).
Defined.

Lemma item_key_ok endpoint item k :
  item_key endpoint item = Ok k ->
  exists user_login, item_login endpoint item = Ok user_login
                     /\ hash_key user_login = Ok k.
Proof.
  unfold item_key. destruct (item_login endpoint item) as [j|e]; [|discriminate].
  intros H. now exists j.
Qed.

(** X13. A pull request whose files request is answered with a status other
    than 200 is counted all the same, with no lines, and nothing is
    printed about the failure. *)
Theorem process_item_pulls_files_failure owner repo token
  (user_stats : dict counters) (kvs : list (string * json)) (u : string)
  (k : pykey) (r : response) (rest : list response) (tr : list event) :
  item_key "pulls" (JObj kvs) = Ok k ->
  assoc "url" kvs = Some (JStr u) ->
  status_code r <> 200 ->
  process_item owner repo "pulls" token user_stats (JObj kvs) (mkWorld (r :: rest) tr)
  = Returns (dict_update k incr_prs (ensure_entry k user_stats))
      (mkWorld rest
         (tr ++ [Get (mkRequest (Url (u ++ "/files")%string) None (auth_headers token))])).
Proof.
  intros Hk Hu Hr. destruct (item_key_ok _ _ _ Hk) as (j & Hj & Hh).
  unfold process_item.
  rewrite (bind_lift_ok _ _ j _ Hj), (bind_lift_ok _ _ k _ Hh).
  cbn [String.eqb Ascii.eqb Bool.eqb py_get]. rewrite Hu.
  rewrite (bind_lift_ok _ _ _ _ eq_refl). cbn [files_url].
  rewrite (bind_lift_ok _ _ _ _ eq_refl), bind_requests_get. cbv beta.
  destruct (status_code r =? 200) eqn:E; [apply Z.eqb_eq in E; contradiction|].
  reflexivity.
Qed.

Lemma process_item_pulls_files_failure_witness :
  let kvs := [("user", JObj [("login", JStr "alice")]); ("url", JStr "u1")] in
  let r := mkResponse 403 JNull in
  item_key "pulls" (JObj kvs) = Ok (KStr "alice") /\
  assoc "url" kvs = Some (JStr "u1") /\ status_code r <> 200 /\
  process_item "o" "r" "pulls" "" [] (JObj kvs) (mkWorld [r] [])
  = Returns [(KStr "alice", mkCounters 1 0 0)]
      (mkWorld [] [Get (mkRequest (Url "u1/files") None [])]).
Proof.
  assert (H : status_code (mkResponse 403 JNull) <> 200) by (simpl; lia).
  split; [reflexivity | split; [reflexivity | split; [exact H |]]].
  exact (process_item_pulls_files_failure "o" "r" "" []
           [("user", JObj [("login", JStr "alice")]); ("url", JStr "u1")]
           "u1" (KStr "alice") (mkResponse 403 JNull) [] [] eq_refl eq_refl H).
Defined.

(** X14. A commit whose detail request is answered with a status other than
    200, a rate limit included, is counted with no lines: the failure is
    printed, and there is no second request and no sleep. *)
Theorem process_item_commits_detail_failure owner repo token
  (user_stats : dict counters) (kvs : list (string * json))
  (k : pykey) (r : response) (rest : list response) (tr : list event) :
  item_key "commits" (JObj kvs) = Ok k ->
  status_code r <> 200 ->
  let sha := match assoc "sha" kvs with Some v => v | None => JNull end in
  process_item owner repo "commits" token user_stats (JObj kvs) (mkWorld (r :: rest) tr)
  = Returns (dict_update k incr_commits (ensure_entry k user_stats))
      (mkWorld rest
         (tr ++ [Get (commit_request owner repo sha token);
                 Print (commit_details_failure (status_code r))])).
Proof.
  intros Hk Hr sha. destruct (item_key_ok _ _ _ Hk) as (j & Hj & Hh).
  unfold process_item.
  rewrite (bind_lift_ok _ _ j _ Hj), (bind_lift_ok _ _ k _ Hh).
  cbn [String.eqb Ascii.eqb Bool.eqb].
  assert (Hj' : commits_login (JObj kvs) = Ok j) by exact Hj.
  rewrite (bind_lift_ok _ _ j _ Hj'), (bind_lift_ok _ _ k _ Hh).
  rewrite ensure_entry_idem. cbn [py_get].
  rewrite (bind_lift_ok _ _ _ _ eq_refl).
  unfold get_commit_details. unfold bind at 1. rewrite bind_requests_get. cbv beta.
  destruct (status_code r =? 200) eqn:E; [apply Z.eqb_eq in E; contradiction|].
  unfold bind, print, emit, ret, lift. cbn [pending trace fst snd py_add py_int rbind].
  rewrite (dict_update_id k (add_lines (0 + 0))).
  - unfold commit_request. subst sha. now rewrite <- app_assoc.
  - intros c. apply add_lines_0.
Qed.

Lemma process_item_commits_detail_failure_witness :
  let kvs := [("sha", JStr "abc"); ("author", JObj [("login", JStr "carol")])] in
  let r := mkResponse 403 JNull in
  item_key "commits" (JObj kvs) = Ok (KStr "carol") /\ status_code r <> 200 /\
  process_item "o" "r" "commits" "" [] (JObj kvs) (mkWorld [r; ok_page []] [])
  = Returns [(KStr "carol", mkCounters 0 1 0)]
      (mkWorld [ok_page []]
         [Get (commit_request "o" "r" (JStr "abc") "");
          Print "Failed to fetch commit details: 403"]).
Proof.
  assert (H : status_code (mkResponse 403 JNull) <> 200) by (simpl; lia).
  split; [reflexivity | split; [exact H |]].
  exact (process_item_commits_detail_failure "o" "r" "" []
           [("sha", JStr "abc"); ("author", JObj [("login", JStr "carol")])]
           (KStr "carol") (mkResponse 403 JNull) [ok_page []] [] eq_refl H).
Defined.

Lemma sum_changes_acc files :
  forall ns acc,
    Forall2 (fun f n => file_changes f = Ok n) files ns ->
    sum_changes acc files = Ok (acc + zsum ns).
Proof.
  induction files as [|f files IH]; intros ns acc H; inversion H; subst.
  - cbn. f_equal. lia.
  - cbn [sum_changes]. unfold file_changes in H2.
    destruct (py_get f "changes" (JNum 0)) as [c|e]; [|discriminate].
    cbn [rbind] in H2 |- *. rewrite H2. cbn [rbind].
    rewrite (IH _ _ H4). cbn [zsum fold_right]. f_equal.
    fold (zsum l'). lia.
Qed.

(** X15. The lines of a pull request are the sum of the [changes] of the files
    its files request lists; a file without the key stands for 0. *)
Theorem pr_files_lines_sum (r : response) (files : list json) (ns : list Z) :
  status_code r = 200 ->
  body r = JArr files ->
  Forall2 (fun f n => file_changes f = Ok n) files ns ->
  pr_files_lines r = Ok (zsum ns).
Proof.
  intros Hs Hb H.
  unfold pr_files_lines. rewrite Hs, Hb. cbn [Z.eqb Pos.eqb py_iter rbind].
  now rewrite (sum_changes_acc files ns 0 H).
Qed.

Lemma pr_files_lines_sum_witness :
  let files := [JObj [("filename", JStr "a.py"); ("changes", JNum 4)];
                JObj [("filename", JStr "b.bin")];
                JObj [("changes", JNum 6)]] in
  let r := mkResponse 200 (JArr files) in
  status_code r = 200 /\ body r = JArr files /\
  Forall2 (fun f n => file_changes f = Ok n) files [4; 0; 6] /\
  pr_files_lines r = Ok 10.
Proof.
  cbv zeta.
  assert (H : Forall2 (fun f n => file_changes f = Ok n)
                [JObj [("filename", JStr "a.py"); ("changes", JNum 4)];
                 JObj [("filename", JStr "b.bin")];
                 JObj [("changes", JNum 6)]] [4; 0; 6])
    by (repeat constructor).
  split; [reflexivity | split; [reflexivity | split; [exact H |]]].
  exact (pr_files_lines_sum
           (mkResponse 200
              (JArr [JObj [("filename", JStr "a.py"); ("changes", JNum 4)];
                     JObj [("filename", JStr "b.bin")];
                     JObj [("changes", JNum 6)]]))
           _ [4; 0; 6] eq_refl eq_refl H).
Defined.

(** ** [main] when nothing is found *)

Lemma get_user_stats_per_endpoint_barren
  owner repo endpoint start_date end_date token r rest tr :
  barren r ->
  get_user_stats_per_endpoint owner repo endpoint start_date end_date token
    (mkWorld (r :: rest) tr)
  = Returns []
      (mkWorld rest
         (tr ++ [Get (page_request owner repo endpoint start_date end_date token 1)]
             ++ failure_prints r)).
Proof.
  unfold get_user_stats_per_endpoint, bind, get_github_data, failure_prints.
  cbn [pending trace get_github_data_loop].
  intros [[H200 H403] | [H200 Hbody]].
  - destruct (status_code r =? 200) eqn:E1; [apply Z.eqb_eq in E1; contradiction|].
    destruct (status_code r =? 403) eqn:E2; [apply Z.eqb_eq in E2; contradiction|].
    cbn. now rewrite <- app_assoc.
  - rewrite H200, Hbody. cbn. reflexivity.
Qed.

(** X16. When both list requests are answered by a failure or by an empty
    list, [main] returns normally and its report is the one text that no
    contributions were found: apart from the failure texts of the fetch,
    a repository that cannot be read looks like one without activity. *)
Theorem main_nothing_found owner repo start_date end_date token
  (r1 r2 : response) (rest : list response) (tr : list event) :
  barren r1 ->
  barren r2 ->
  main owner repo start_date end_date token (mkWorld (r1 :: r2 :: rest) tr)
  = Returns tt
      (mkWorld rest
         (tr ++ [Get (page_request owner repo "pulls" start_date end_date token 1)]
             ++ failure_prints r1
             ++ [Get (page_request owner repo "commits" start_date end_date token 1)]
             ++ failure_prints r2
             ++ [Print no_contributions])).
Proof.
  intros H1 H2. unfold main, main_stats. unfold bind at 1 2.
  rewrite (get_user_stats_per_endpoint_barren _ _ _ _ _ _ r1 (r2 :: rest) tr H1).
  unfold bind at 1.
  rewrite (get_user_stats_per_endpoint_barren _ _ _ _ _ _ r2 rest _ H2).
  cbn [fold_left ret report]. rewrite print_all_trace. cbn [pending trace map].
  now rewrite <- !app_assoc.
Qed.

Lemma main_nothing_found_witness :
  let r1 := mkResponse 404 (JObj [("message", JStr "Not Found")]) in
  let r2 := ok_page [] in
  barren r1 /\ barren r2 /\
  main "o" "nosuchrepo" "2024-01-01" "2024-01-31" "" (mkWorld [r1; r2] [])
  = Returns tt
      (mkWorld []
         [Get (page_request "o" "nosuchrepo" "pulls" "2024-01-01" "2024-01-31" "" 1);
          Print "API request failed: 404";
          Get (page_request "o" "nosuchrepo" "commits" "2024-01-01" "2024-01-31" "" 1);
          Print "No contributions found between the specified dates."]).
Proof.
  assert (H1 : barren (mkResponse 404 (JObj [("message", JStr "Not Found")])))
    by (left; cbn; lia).
  assert (H2 : barren (ok_page [])) by (right; now split).
  split; [exact H1 | split; [exact H2 |]].
  exact (main_nothing_found "o" "nosuchrepo" "2024-01-01" "2024-01-31" ""
           _ _ [] [] H1 H2).
Defined.

(** ** The order of the merged mapping *)

Lemma keys_update {V} k (g : V -> V) (d : dict V) : keys (dict_update k g d) = keys d.
Proof.
  unfold keys. induction d as [|[k0 v0] d IH]; cbn [dict_update map]; [reflexivity|].
  destruct (key_eqb k k0); cbn [map fst]; [reflexivity | now rewrite IH].
Qed.

Lemma keys_ensure k d :
  keys (ensure_entry k d) = keys d ++ (if dict_contains k d then [] else [k]).
Proof.
  unfold ensure_entry. unfold dict_contains at 1 2.
  destruct (dict_get k d) eqn:E.
  - now rewrite app_nil_r.
  - rewrite (dict_set_fresh k _ d E). unfold keys. now rewrite map_app.
Qed.

Lemma dict_get_None_keys {V} k (d : dict V) k' :
  dict_get k d = None -> In k' (keys d) -> key_eqb k' k = false.
Proof.
  induction d as [|[k0 v0] d IH]; cbn [dict_get keys map In fst]; [contradiction|].
  destruct (key_eqb k k0) eqn:E; [discriminate|].
  intros H [-> | Hin]; [now rewrite key_eqb_sym | now apply IH].
Qed.

Section MergeOrder.
Variable step : dict counters -> pykey * counters -> dict counters.
Hypothesis step_keys : forall user_stats user stats,
  keys (step user_stats (user, stats))
  = keys user_stats ++ (if dict_contains user user_stats then [] else [user]).
Hypothesis step_contains : forall user_stats user stats k,
  dict_contains k (step user_stats (user, stats))
  = key_eqb k user || dict_contains k user_stats.

Lemma merge_loop_keys source : dict_wf source ->
  forall user_stats,
    keys (fold_left step source user_stats)
    = keys user_stats
      ++ filter (fun k => negb (dict_contains k user_stats)) (keys source).
Proof.
  induction source as [|[user stats] source IH]; intros Hwf user_stats.
  - cbn. now rewrite app_nil_r.
  - destruct Hwf as [Hfresh Hwf]. cbn [fold_left].
    rewrite (IH Hwf), step_keys. cbn [keys map fst filter].
    fold (keys source).
    assert (Hext : filter (fun k => negb (dict_contains k (step user_stats (user, stats))))
                     (keys source)
                   = filter (fun k => negb (dict_contains k user_stats)) (keys source)).
    { apply filter_ext_in. intros k Hk. rewrite step_contains.
      now rewrite (dict_get_None_keys user source k Hfresh Hk). }
    rewrite Hext. destruct (dict_contains user user_stats); cbn [negb].
    + now rewrite app_nil_r.
    + now rewrite <- app_assoc.
Qed.
End MergeOrder.

Lemma dict_contains_merge_pr_entry user_stats user stats k :
  dict_contains k (merge_pr_entry user_stats (user, stats))
  = key_eqb k user || dict_contains k user_stats.
Proof.
  unfold dict_contains. rewrite dict_get_merge_pr_entry.
  now destruct (key_eqb k user).
Qed.

Lemma dict_contains_merge_commit_entry user_stats user stats k :
  dict_contains k (merge_commit_entry user_stats (user, stats))
  = key_eqb k user || dict_contains k user_stats.
Proof.
  unfold dict_contains. rewrite dict_get_merge_commit_entry.
  now destruct (key_eqb k user).
Qed.

Lemma keys_merge_pr_entry user_stats user stats :
  keys (merge_pr_entry user_stats (user, stats))
  = keys user_stats ++ (if dict_contains user user_stats then [] else [user]).
Proof. unfold merge_pr_entry. now rewrite !keys_update, keys_ensure. Qed.

Lemma keys_merge_commit_entry user_stats user stats :
  keys (merge_commit_entry user_stats (user, stats))
  = keys user_stats ++ (if dict_contains user user_stats then [] else [user]).
Proof. unfold merge_commit_entry. now rewrite !keys_update, keys_ensure. Qed.

(** X10. The merged mapping lists the contributors of the pull requests first,
    in their order, and after them the contributors that have commits
    only, in the order of the commit mapping.  With the stable sort this
    is the order in which contributors with equal counters are
    reported. *)
Theorem merge_stats_keys (pr_stats commit_stats : dict counters) :
  dict_wf pr_stats ->
  dict_wf commit_stats ->
  keys (merge_stats pr_stats commit_stats)
  = keys pr_stats
    ++ filter (fun k => negb (dict_contains k pr_stats)) (keys commit_stats).
Proof.
  intros Hpr Hcm. unfold merge_stats.
  rewrite (merge_loop_keys merge_commit_entry keys_merge_commit_entry
             dict_contains_merge_commit_entry commit_stats Hcm).
  rewrite (merge_loop_keys merge_pr_entry keys_merge_pr_entry
             dict_contains_merge_pr_entry pr_stats Hpr).
  cbn [keys map app].
  assert (Hall : filter (fun k => negb (@dict_contains counters k [])) (keys pr_stats)
                 = keys pr_stats).
  { induction (keys pr_stats) as [|k l IH]; [reflexivity|].
    cbn [filter]. change (@dict_contains counters k []) with false.
    cbn [negb]. now rewrite IH. }
  fold (keys pr_stats). rewrite Hall. f_equal.
  apply filter_ext. intros k. f_equal. unfold dict_contains.
  rewrite (merge_loop_get merge_pr_entry
             (fun stats c => mkCounters (prs stats) (commits c) (lines c + lines stats))
             dict_get_merge_pr_entry pr_stats Hpr).
  now destruct (dict_get k pr_stats).
Qed.

Lemma merge_stats_keys_witness :
  let pr_stats := [(KStr "alice", mkCounters 3 0 10); (KStr "bob", mkCounters 1 0 4)] in
  let commit_stats := [(KStr "carol", mkCounters 0 2 9); (KStr "alice", mkCounters 0 5 7);
                       (KStr "dave", mkCounters 0 1 1)] in
  dict_wf pr_stats /\ dict_wf commit_stats /\
  keys (merge_stats pr_stats commit_stats)
  = [KStr "alice"; KStr "bob"; KStr "carol"; KStr "dave"].
Proof.
  assert (H1 : dict_wf [(KStr "alice", mkCounters 3 0 10); (KStr "bob", mkCounters 1 0 4)])
    by (simpl; auto).
  assert (H2 : dict_wf [(KStr "carol", mkCounters 0 2 9); (KStr "alice", mkCounters 0 5 7);
                        (KStr "dave", mkCounters 0 1 1)])
    by (simpl; auto).
  split; [exact H1 | split; [exact H2 |]].
  cbv zeta. rewrite (merge_stats_keys _ _ H1 H2). reflexivity.
Defined.

(** ** The repository URL *)

Lemma split_on_nonempty sep s : split_on sep s <> [].
Proof.
  destruct s as [|c s]; cbn [split_on]; [discriminate|].
  destruct (Ascii.eqb c sep); [discriminate|].
  destruct (split_on sep s); discriminate.
Qed.

Lemma split_on_no_slash s : no_slash s -> split_on "/" s = [s].
Proof.
  unfold no_slash. induction s as [|c s IH]; [reflexivity|].
  cbn [list_ascii_of_string forallb split_on]. intros H.
  apply andb_true_iff in H. destruct H as [Hc Hs].
  apply negb_true_iff in Hc. rewrite Hc, (IH Hs). reflexivity.
Qed.

(** Splitting a text with a separator in the middle splits both sides. *)
Lemma split_on_app sep a b :
  split_on sep (a ++ String sep b) = split_on sep a ++ split_on sep b.
Proof.
  induction a as [|c a IH].
  - cbn [String.append split_on app]. now rewrite Ascii.eqb_refl.
  - cbn [String.append split_on]. rewrite IH.
    destruct (Ascii.eqb c sep); [reflexivity|].
    destruct (split_on sep a) as [|field fields] eqn:E; [|reflexivity].
    now destruct (split_on_nonempty sep a).
Qed.

Lemma last_two_app {A} (l : list A) x y : last_two (l ++ [x; y]) = [x; y].
Proof.
  unfold last_two. rewrite length_app. cbn [List.length].
  replace (List.length l + 2 - 2)%nat with (List.length l + 0)%nat by lia.
  rewrite skipn_app, skipn_all2 by lia.
  replace (List.length l + 0 - List.length l)%nat with 0%nat by lia.
  reflexivity.
Qed.

(** X18. A URL that ends in [/owner/repo] gives that owner and that repo,
    whatever comes before; the repo is whatever follows the last slash,
    so it is empty when the URL ends in a slash. *)
Theorem owner_repo_of_url (base owner repo : string) :
  no_slash owner ->
  no_slash repo ->
  owner_repo (base ++ "/" ++ owner ++ "/" ++ repo) = Some (owner, repo).
Proof.
  intros Ho Hr. unfold owner_repo.
  change ("/" ++ owner ++ "/" ++ repo)%string
    with (String "/" (owner ++ String "/" repo)).
  rewrite split_on_app, split_on_app.
  rewrite (split_on_no_slash owner Ho), (split_on_no_slash repo Hr).
  cbn [app]. now rewrite last_two_app.
Qed.

Lemma owner_repo_of_url_witness :
  no_slash "octocat" /\ no_slash "hello" /\ no_slash "" /\
  owner_repo "https://github.com/octocat/hello" = Some ("octocat", "hello") /\
  owner_repo "https://github.com/octocat/hello/" = Some ("hello", "").
Proof.
  assert (H1 : no_slash "octocat") by reflexivity.
  assert (H2 : no_slash "hello") by reflexivity.
  assert (H3 : no_slash "") by reflexivity.
  split; [exact H1 | split; [exact H2 | split; [exact H3 |]]]. split.
  - exact (owner_repo_of_url "https://github.com" "octocat" "hello" H1 H2).
  - exact (owner_repo_of_url "https://github.com/octocat" "hello" "" H2 H3).
Defined.

(** X19. A text without a slash has a single segment, and the unpacking into
    owner and repo raises. *)
Theorem owner_repo_without_slash (s : string) :
  no_slash s -> owner_repo s = None.
Proof.
  intros H. unfold owner_repo. now rewrite (split_on_no_slash s H).
Qed.

Lemma owner_repo_without_slash_witness :
  no_slash "hello" /\ owner_repo "hello" = None.
Proof.
  assert (H : no_slash "hello") by reflexivity.
  split; [exact H | exact (owner_repo_without_slash "hello" H)].
Defined.

(** ** One line per contributor *)

(** X17. The merged mapping of a completed run has pairwise different keys:
    the items of one contributor, pull requests and commits alike, end up
    in one entry, and the report has one line for it. *)
Theorem main_stats_distinct_keys owner repo start_date end_date token w user_stats w' :
  main_stats owner repo start_date end_date token w = Returns user_stats w' ->
  dict_wf user_stats
  /\ List.length (report user_stats)
     = match user_stats with
       | [] => 1%nat
       | _ :: _ => (2 + List.length user_stats)%nat
       end.
Proof.
  intros H.
  destruct (main_stats_returns _ _ _ _ _ _ _ _ H)
    as (pr_stats & commit_stats & w1 & Hpr & Hcm & ->).
  split.
  - unfold merge_stats.
    apply (merge_loop_wf merge_commit_entry merge_commit_entry_wf).
    apply (merge_loop_wf merge_pr_entry merge_pr_entry_wf). exact I.
  - destruct (merge_stats pr_stats commit_stats) as [|entry rest] eqn:E; [reflexivity|].
    cbn [report]. rewrite length_app, length_map. unfold sorted_users.
    rewrite (Permutation_length (sorted_reverse_perm sort_key (entry :: rest))).
    reflexivity.
Qed.

Lemma main_stats_distinct_keys_witness :
  let pr := JObj [("user", JObj [("login", JStr "alice")]); ("url", JStr "u1")] in
  let commit := JObj [("sha", JStr "abd"); ("author", JObj [("login", JStr "alice")])] in
  let script :=
    [ok_page [pr; pr]; mkResponse 404 JNull; mkResponse 404 JNull;
     ok_page [commit]; mkResponse 404 JNull] in
  exists user_stats w',
    main_stats "o" "r" "2024-01-01" "2024-01-31" "" (mkWorld script [])
    = Returns user_stats w'
    /\ user_stats = [(KStr "alice", mkCounters 2 1 0)]
    /\ dict_wf user_stats
    /\ List.length (report user_stats) = 3%nat.
Proof.
  cbv zeta. eexists. eexists. split; [vm_compute; reflexivity|].
  split; [reflexivity|].
  exact (main_stats_distinct_keys "o" "r" "2024-01-01" "2024-01-31" ""
           (mkWorld
              [ok_page [JObj [("user", JObj [("login", JStr "alice")]); ("url", JStr "u1")];
                        JObj [("user", JObj [("login", JStr "alice")]); ("url", JStr "u1")]];
               mkResponse 404 JNull; mkResponse 404 JNull;
               ok_page [JObj [("sha", JStr "abd"); ("author", JObj [("login", JStr "alice")])]];
               mkResponse 404 JNull] [])
           _ _ eq_refl).
Defined.

(** ** Characters of a string body *)

Lemma utf8_split_spec s :
  List.length (snd (utf8_split s)) = lead_bytes s
  /\ (fst (utf8_split s) = EmptyString <-> starts_with_lead s = true).
Proof.
  induction s as [|c s [IHn IHc]]; [now split|].
  cbn [utf8_split lead_bytes starts_with_lead].
  destruct (utf8_split s) as [cont chars]. cbn [fst snd] in *.
  destruct (is_continuation c); cbn [fst snd List.length negb]; split;
    try exact IHn; try (now rewrite IHn); split; intros H;
    try discriminate H; reflexivity.
Qed.

(** A string body has as many items as its text has characters, whatever
    the number of bytes each takes. *)
Lemma py_iter_string_length s :
  starts_with_lead s = true ->
  exists data, py_iter (JStr s) = Ok data /\ List.length data = lead_bytes s.
Proof.
  intros H. cbn [py_iter]. eexists. split; [reflexivity|].
  rewrite length_map. unfold utf8_chars.
  destruct (utf8_split_spec s) as [Hn Hc].
  destruct (utf8_split s) as [cont chars]. cbn [fst snd] in *.
  apply Hc in H. now rewrite H.
Qed.

Example string_body_of_60_characters_ends_the_loop :
  let t := mkResponse 200 (JStr (repeat_text 60 e_acute)) in
  String.length (repeat_text 60 e_acute) = 120%nat
  /\ continues t = false
  /\ exists items w,
       get_github_data "o" "r" "pulls" "2024-01-01" "2024-01-31" ""
         (mkWorld [t; ok_page []] []) = Returns items w
       /\ List.length items = 60%nat
       /\ pending w = [ok_page []].
Proof.
  cbv zeta. split; [reflexivity|]. split; [reflexivity|].
  eexists. eexists. split; [vm_compute; reflexivity|]. now split.
Qed.
